(** * python-with-postgres: the HTTP handler of [main.py] and the script [guide.py]

    A shallow embedding of the two programs of the repository and of the
    parts of their libraries they call (urllib.parse, json, psycopg2 in
    front of one PostgreSQL table), followed by the properties of the
    request routing and persistence contract.

    Text is modelled by [string]: sequences of 8-bit characters, read as
    the code points below 256.  That is what http.server hands to the
    handler in [self.path] (the request line is decoded as ISO-8859-1). *)

From Stdlib Require Import String Ascii List Bool Arith ZArith.
From Stdlib Require Import DecimalString.
From Stdlib Require DecimalFacts DecimalPos.
Import ListNotations.
Local Open Scope string_scope.

(** ** Text helpers (the [str] methods the code and its libraries use) *)

Definition chr (n : nat) : ascii := ascii_of_nat n.
Definition ord (c : ascii) : nat := nat_of_ascii c.

Definition LF : string := String (chr 10) "".
Definition DQ : string := String (chr 34) "".

Fixpoint contains (c : ascii) (s : string) : bool :=
  match s with
  | "" => false
  | String d r => Ascii.eqb c d || contains c r
  end.

(** [s.partition(c)] when [c] occurs in [s]: the text before the first
    occurrence and the text after it. *)
Fixpoint split_first (c : ascii) (s : string) : option (string * string) :=
  match s with
  | "" => None
  | String d r =>
      if Ascii.eqb c d then Some ("", r)
      else match split_first c r with
           | Some (a, b) => Some (String d a, b)
           | None => None
           end
  end.

(** [s.split(c)] *)
Fixpoint split_on (c : ascii) (s : string) : list string :=
  match s with
  | "" => [""]
  | String d r =>
      match split_on c r with
      | [] => [""]
      | x :: xs => if Ascii.eqb c d then "" :: x :: xs else String d x :: xs
      end
  end.

Fixpoint lstrip (p : ascii -> bool) (s : string) : string :=
  match s with
  | "" => ""
  | String d r => if p d then lstrip p r else s
  end.

Fixpoint remove_chars (p : ascii -> bool) (s : string) : string :=
  match s with
  | "" => ""
  | String d r => if p d then remove_chars p r else String d (remove_chars p r)
  end.

Fixpoint forallb_str (p : ascii -> bool) (s : string) : bool :=
  match s with
  | "" => true
  | String d r => p d && forallb_str p r
  end.

Fixpoint map_str (f : ascii -> ascii) (s : string) : string :=
  match s with
  | "" => ""
  | String d r => String (f d) (map_str f r)
  end.

Definition in_range (lo hi : nat) (c : ascii) : bool :=
  ((lo <=? ord c) && (ord c <=? hi))%nat.

Definition is_upper (c : ascii) : bool := in_range 65 90 c.
Definition is_lower (c : ascii) : bool := in_range 97 122 c.
Definition is_digit (c : ascii) : bool := in_range 48 57 c.
Definition is_ascii_alpha (c : ascii) : bool := is_upper c || is_lower c.

Definition lower_char (c : ascii) : ascii :=
  if is_upper c then chr (ord c + 32) else c.
Definition lower : string -> string := map_str lower_char.

Fixpoint repeat_char (c : ascii) (n : nat) : string :=
  match n with
  | O => ""
  | S k => String c (repeat_char c k)
  end.

(** ** urllib.parse *)

(** The exceptions the programs can meet.  [except Exception] in
    [do_GET] catches every one of them. *)
Inductive exn_class :=
| ValueError | TypeError | IndexError
| InterfaceError | ProgrammingError | UndefinedTable.

Record exn := mk_exn { exn_type : exn_class; exn_args : string }.

(** [str(e)] *)
Definition str_exn (e : exn) : string := exn_args e.

Inductive result (A : Type) :=
| Ok (a : A)
| Raise (e : exn).
Arguments Ok {A} a.
Arguments Raise {A} e.

Record ParseResult := mk_url {
  scheme : string; netloc : string; path : string;
  params : string; query : string; fragment : string }.

Definition is_c0_control_or_space (c : ascii) : bool := (ord c <=? 32)%nat.
Definition is_unsafe_url_byte (c : ascii) : bool :=
  ((ord c =? 9) || (ord c =? 10) || (ord c =? 13))%nat.

(** [scheme_chars]: letters, digits and [+-.] *)
Definition is_scheme_char (c : ascii) : bool :=
  is_ascii_alpha c || is_digit c
  || ((ord c =? 43) || (ord c =? 45) || (ord c =? 46))%nat.

Definition uses_params : list string :=
  [""; "ftp"; "hdl"; "prospero"; "http"; "imap"; "https"; "shttp";
   "rtsp"; "rtspu"; "sip"; "sips"; "mms"; "sftp"; "tel"].

(** The scheme prefix [url[:i]] at the first colon, when [i > 0], the
    first character is an ASCII letter and all are scheme characters. *)
Definition split_scheme (url : string) : string * string :=
  match split_first ":" url with
  | Some (String c0 pre, post) =>
      if is_ascii_alpha c0 && forallb_str is_scheme_char (String c0 pre)
      then (lower (String c0 pre), post)
      else ("", url)
  | _ => ("", url)
  end.

(** [_splitnetloc(url, 2)] on the text after the two slashes: the
    network location ends at the first of [/], [?], [#]. *)
Fixpoint splitnetloc (s : string) : string * string :=
  match s with
  | "" => ("", "")
  | String d r =>
      if Ascii.eqb d "/" || Ascii.eqb d "?" || Ascii.eqb d "#" then ("", s)
      else let (n, rest) := splitnetloc r in (String d n, rest)
  end.

Definition invalid_ipv6 : exn := mk_exn ValueError "Invalid IPv6 URL".

(** [urlsplit].  Of its checks on the network location the model keeps
    the bracket matching; the validation of a bracketed host as an IP
    literal, which recent versions add, and the NFKC check, which no
    8-bit character trips, are outside it.  A request target in origin
    form (one leading slash) has no network location at all. *)
Definition urlsplit (url0 : string) : result ParseResult :=
  let url1 := remove_chars is_unsafe_url_byte
                (lstrip is_c0_control_or_space url0) in
  let (sch, url2) := split_scheme url1 in
  let after_netloc :=
    match url2 with
    | String "/" (String "/" r) =>
        let (nl, url3) := splitnetloc r in
        if (contains "[" nl && negb (contains "]" nl))
           || (contains "]" nl && negb (contains "[" nl))
        then Raise invalid_ipv6
        else Ok (nl, url3)
    | _ => Ok ("", url2)
    end in
  match after_netloc with
  | Raise e => Raise e
  | Ok (nl, url3) =>
      let (url4, frag) :=
        match split_first "#" url3 with
        | Some (a, b) => (a, b)
        | None => (url3, "")
        end in
      let (url5, q) :=
        match split_first "?" url4 with
        | Some (a, b) => (a, b)
        | None => (url4, "")
        end in
      Ok (mk_url sch nl url5 "" q frag)
  end.

(** The text up to and including the last slash, and the text after it
    (the first component is empty when there is no slash). *)
Fixpoint rsplit_slash (s : string) : string * string :=
  match s with
  | "" => ("", "")
  | String d r =>
      let (h, t) := rsplit_slash r in
      match h with
      | "" => if Ascii.eqb d "/" then ("/", r) else ("", String d t)
      | _ => (String d h, t)
      end
  end.

(** [_splitparams]: the parameters start at the first semicolon of the
    last path segment. *)
Definition splitparams (url : string) : string * string :=
  let (h, t) := rsplit_slash url in
  match split_first ";" t with
  | Some (a, b) => (h ++ a, b)
  | None => (url, "")
  end.

Definition urlparse (url : string) : result ParseResult :=
  match urlsplit url with
  | Raise e => Raise e
  | Ok u =>
      if existsb (String.eqb (scheme u)) uses_params && contains ";" (path u)
      then let (p, ps) := splitparams (path u) in
           Ok (mk_url (scheme u) (netloc u) p ps (query u) (fragment u))
      else Ok u
  end.

Definition hex_value (c : ascii) : option nat :=
  if is_digit c then Some (ord c - 48)
  else if in_range 65 70 c then Some (ord c - 55)
  else if in_range 97 102 c then Some (ord c - 87)
  else None.

(** [unquote]: a percent sign followed by two hexadecimal digits becomes
    the character with that code; any other percent sign stays.  Python
    goes on to decode runs of escaped bytes from 0x80 up as UTF-8; the
    model keeps them as 8-bit characters. *)
Fixpoint unquote (s : string) : string :=
  match s with
  | "" => ""
  | String c t =>
      if Ascii.eqb c "%" then
        match t with
        | String a (String b r) =>
            match hex_value a, hex_value b with
            | Some x, Some y => String (chr (16 * x + y)) (unquote r)
            | _, _ => String c (unquote t)
            end
        | _ => String c (unquote t)
        end
      else String c (unquote t)
  end.

Definition plus_to_space (c : ascii) : ascii :=
  if Ascii.eqb c "+" then " "%char else c.

(** One field of the query string, as the loop body of [parse_qsl] treats
    it with [keep_blank_values] and [strict_parsing] off. *)
Definition parse_field (name_value : string) : list (string * string) :=
  match name_value with
  | "" => []
  | _ =>
      match split_first "=" name_value with
      | None => []
      | Some (n, v) =>
          match v with
          | "" => []
          | _ => [(unquote (map_str plus_to_space n),
                   unquote (map_str plus_to_space v))]
          end
      end
  end.

Definition parse_qsl (qs : string) : list (string * string) :=
  flat_map parse_field (split_on "&" qs).

(** [dict(pairs).get(key, default)]: a later pair replaces an earlier one
    with the same key. *)
Definition dict_get (key default : string) (pairs : list (string * string))
  : string :=
  fold_left (fun acc kv => if String.eqb (fst kv) key then snd kv else acc)
            pairs default.

(** ** Values of the driver and [json.dump] *)

(** [datetime.datetime], as psycopg2 returns a TIMESTAMP column (naive:
    no time zone). *)
Record datetime := mk_datetime {
  year : nat; month : nat; day : nat;
  hour : nat; minute : nat; second : nat; microsecond : nat }.

Definition str_nat (n : nat) : string :=
  NilEmpty.string_of_uint (Nat.to_uint n).

Definition str_int (z : Z) : string :=
  NilZero.string_of_int (Z.to_int z).

(** ["%0wd" % n] *)
Definition zfill (w n : nat) : string :=
  let s := str_nat n in repeat_char "0" (w - String.length s) ++ s.

(** [str(d)]: ISO format with a space as separator; the fraction is
    printed only when the microseconds are not zero. *)
Definition str_datetime (d : datetime) : string :=
  zfill 4 (year d) ++ "-" ++ zfill 2 (month d) ++ "-" ++ zfill 2 (day d)
  ++ " " ++ zfill 2 (hour d) ++ ":" ++ zfill 2 (minute d)
  ++ ":" ++ zfill 2 (second d)
  ++ match microsecond d with
     | O => ""
     | _ => "." ++ zfill 6 (microsecond d)
     end.

(** What a column of a fetched row holds. *)
Inductive value :=
| VNone
| VInt (z : Z)
| VStr (s : string)
| VDatetime (d : datetime).

Definition tuple := list value.

Definition hex_digit (n : nat) : ascii :=
  if (n <? 10)%nat then chr (48 + n) else chr (87 + n).

(** One character inside a JSON string, as [ensure_ascii] escapes it. *)
Definition json_escape_char (c : ascii) : string :=
  let n := ord c in
  if (n =? 34)%nat then "\" ++ DQ
  else if (n =? 92)%nat then "\\"
  else if (n =? 10)%nat then "\n"
  else if (n =? 13)%nat then "\r"
  else if (n =? 9)%nat then "\t"
  else if (n =? 12)%nat then "\f"
  else if (n =? 8)%nat then "\b"
  else if in_range 32 126 c then String c ""
  else "\u00" ++ String (hex_digit (n / 16)) (String (hex_digit (n mod 16)) "").

Fixpoint json_escape (s : string) : string :=
  match s with
  | "" => ""
  | String c r => json_escape_char c ++ json_escape r
  end.

(** [py_encode_basestring_ascii] *)
Definition encode_basestring_ascii (s : string) : string :=
  DQ ++ json_escape s ++ DQ.

(** A scalar.  A [datetime] is not serialisable by itself: the encoder
    calls [default], here [str], and encodes the text it returns. *)
Definition json_value (v : value) : string :=
  match v with
  | VNone => "null"
  | VInt z => str_int z
  | VStr s => encode_basestring_ascii s
  | VDatetime d => encode_basestring_ascii (str_datetime d)
  end.

Definition newline_indent (level : nat) : string :=
  LF ++ repeat_char " " (4 * level).

(** [_iterencode_list] with [indent=4], on the encoded items. *)
Definition json_list (level : nat) (items : list string) : string :=
  match items with
  | [] => "[]"
  | _ => "[" ++ newline_indent (S level)
         ++ String.concat ("," ++ newline_indent (S level)) items
         ++ newline_indent level ++ "]"
  end.

(** [json.dump(records, io, indent=4, sort_keys=True, default=str)]
    followed by [io.getvalue()], for a list of tuples of scalars. *)
Definition json_dump (records : list tuple) : string :=
  json_list 0 (map (fun t => json_list 1 (map json_value t)) records).

(** ** Syntactic validity of a JSON text (RFC 8259)

    A pushdown recogniser: one step per character, with the stack of
    the arrays and objects that are still open. *)

Inductive jctx := InArr | InObj.

Inductive jstate :=
| JValue                      (* a value must start here *)
| JAfter                      (* a value has just ended *)
| JArrStart                   (* after [[]: a value or []] *)
| JObjStart                   (* after [{]: a key or [}] *)
| JKey                        (* after a comma in an object: a key *)
| JColon                      (* after a key: the colon *)
| JStr (key : bool)           (* inside a string *)
| JEsc (key : bool)           (* after a backslash *)
| JHex (key : bool) (n : nat) (* [S n] hexadecimal digits still due *)
| JLit (rest : string)        (* inside [true], [false] or [null] *)
| JMinus | JZero | JInt       (* number: sign, leading zero, digits *)
| JDot | JFrac                (* number: after the point, fraction *)
| JExp0 | JExpSign | JExp.    (* number: after [e], its sign, its digits *)

Definition is_ws (c : ascii) : bool :=
  ((ord c =? 32) || (ord c =? 9) || (ord c =? 10) || (ord c =? 13))%nat.

Definition is_hex (c : ascii) : bool :=
  match hex_value c with Some _ => true | None => false end.

Definition value_start (stk : list jctx) (c : ascii)
  : option (jstate * list jctx) :=
  if Ascii.eqb c "{" then Some (JObjStart, InObj :: stk)
  else if Ascii.eqb c "[" then Some (JArrStart, InArr :: stk)
  else if (ord c =? 34)%nat then Some (JStr false, stk)
  else if Ascii.eqb c "-" then Some (JMinus, stk)
  else if Ascii.eqb c "0" then Some (JZero, stk)
  else if is_digit c then Some (JInt, stk)
  else if Ascii.eqb c "t" then Some (JLit "rue", stk)
  else if Ascii.eqb c "f" then Some (JLit "alse", stk)
  else if Ascii.eqb c "n" then Some (JLit "ull", stk)
  else None.

Definition value_end (stk : list jctx) (c : ascii)
  : option (jstate * list jctx) :=
  if is_ws c then Some (JAfter, stk)
  else match stk with
       | InArr :: up =>
           if Ascii.eqb c "," then Some (JValue, stk)
           else if Ascii.eqb c "]" then Some (JAfter, up)
           else None
       | InObj :: up =>
           if Ascii.eqb c "," then Some (JKey, stk)
           else if Ascii.eqb c "}" then Some (JAfter, up)
           else None
       | [] => None
       end.

Definition json_step (st : jstate) (stk : list jctx) (c : ascii)
  : option (jstate * list jctx) :=
  match st with
  | JValue => if is_ws c then Some (JValue, stk) else value_start stk c
  | JAfter => value_end stk c
  | JArrStart =>
      if is_ws c then Some (JArrStart, stk)
      else if Ascii.eqb c "]" then Some (JAfter, tl stk)
      else value_start stk c
  | JObjStart =>
      if is_ws c then Some (JObjStart, stk)
      else if Ascii.eqb c "}" then Some (JAfter, tl stk)
      else if (ord c =? 34)%nat then Some (JStr true, stk)
      else None
  | JKey =>
      if is_ws c then Some (JKey, stk)
      else if (ord c =? 34)%nat then Some (JStr true, stk)
      else None
  | JColon =>
      if is_ws c then Some (JColon, stk)
      else if Ascii.eqb c ":" then Some (JValue, stk)
      else None
  | JStr k =>
      if (ord c =? 34)%nat then Some (if k then JColon else JAfter, stk)
      else if (ord c =? 92)%nat then Some (JEsc k, stk)
      else if (ord c <? 32)%nat then None
      else Some (JStr k, stk)
  | JEsc k =>
      if (ord c =? 34)%nat || (ord c =? 92)%nat || Ascii.eqb c "/"
         || Ascii.eqb c "b" || Ascii.eqb c "f" || Ascii.eqb c "n"
         || Ascii.eqb c "r" || Ascii.eqb c "t"
      then Some (JStr k, stk)
      else if Ascii.eqb c "u" then Some (JHex k 3, stk)
      else None
  | JHex k n =>
      if is_hex c
      then Some (match n with O => JStr k | S m => JHex k m end, stk)
      else None
  | JLit rest =>
      match rest with
      | String d "" => if Ascii.eqb c d then Some (JAfter, stk) else None
      | String d r => if Ascii.eqb c d then Some (JLit r, stk) else None
      | "" => None
      end
  | JMinus =>
      if Ascii.eqb c "0" then Some (JZero, stk)
      else if is_digit c then Some (JInt, stk)
      else None
  | JZero =>
      if Ascii.eqb c "." then Some (JDot, stk)
      else if Ascii.eqb c "e" || Ascii.eqb c "E" then Some (JExp0, stk)
      else value_end stk c
  | JInt =>
      if is_digit c then Some (JInt, stk)
      else if Ascii.eqb c "." then Some (JDot, stk)
      else if Ascii.eqb c "e" || Ascii.eqb c "E" then Some (JExp0, stk)
      else value_end stk c
  | JDot => if is_digit c then Some (JFrac, stk) else None
  | JFrac =>
      if is_digit c then Some (JFrac, stk)
      else if Ascii.eqb c "e" || Ascii.eqb c "E" then Some (JExp0, stk)
      else value_end stk c
  | JExp0 =>
      if Ascii.eqb c "+" || Ascii.eqb c "-" then Some (JExpSign, stk)
      else if is_digit c then Some (JExp, stk)
      else None
  | JExpSign => if is_digit c then Some (JExp, stk) else None
  | JExp =>
      if is_digit c then Some (JExp, stk) else value_end stk c
  end.

Definition json_final (st : jstate) (stk : list jctx) : bool :=
  match stk, st with
  | [], (JAfter | JZero | JInt | JFrac | JExp) => true
  | _, _ => false
  end.

Fixpoint json_run (st : jstate) (stk : list jctx) (s : string) : bool :=
  match s with
  | "" => json_final st stk
  | String c r =>
      match json_step st stk c with
      | Some (st', stk') => json_run st' stk' r
      | None => false
      end
  end.

(** The text is one JSON value, with optional white space around it. *)
Definition json_valid (s : string) : bool := json_run JValue [] s.

(** ** The table on the server *)

(** One row of [my_table]. *)
Record record := mk_record {
  id : Z;                  (* BIGSERIAL PRIMARY KEY NOT NULL *)
  name : option string;    (* varchar, nullable *)
  date : datetime }.       (* TIMESTAMP NOT NULL DEFAULT current_timestamp *)

(** The table with the sequence behind its [id] column.  The sequence
    is modelled without its upper bound of 2^63 - 1. *)
Record my_table := mk_table { rows : list record; next_id : Z }.

(** [None]: the table does not exist. *)
Definition database := option my_table.

(** The statements of the two programs. *)
Inductive statement :=
| probeQuery          (* SELECT %s as connected; *)
| createTableQuery    (* CREATE TABLE IF NOT EXISTS my_table(...); *)
| writeDataQuery      (* INSERT INTO my_table(name) VALUES(%s); *)
| readDataQuery       (* SELECT * FROM my_table WHERE name = %s; *)
| deleteDataQuery.    (* DROP TABLE IF EXISTS my_table; *)

(** [guide.py] calls the insert statement [addDataQuery]. *)
Definition addDataQuery : statement := writeDataQuery.

(** The number of [%s] in the statement. *)
Definition placeholders (q : statement) : nat :=
  match q with
  | probeQuery | writeDataQuery | readDataQuery => 1
  | createTableQuery | deleteDataQuery => 0
  end.

Definition tuple_of_record (r : record) : tuple :=
  [VInt (id r);
   match name r with Some s => VStr s | None => VNone end;
   VDatetime (date r)].

(** The SQL condition [name = X]: never true of a NULL name. *)
Definition name_is (X : string) (r : record) : bool :=
  match name r with
  | Some s => String.eqb s X
  | None => false
  end.

(** A text as an SQL literal (standard_conforming_strings on). *)
Fixpoint sql_escape (s : string) : string :=
  match s with
  | "" => ""
  | String c r =>
      if Ascii.eqb c "'" then String c (String c (sql_escape r))
      else String c (sql_escape r)
  end.
Definition sql_literal (s : string) : string := "'" ++ sql_escape s ++ "'".

(** What the server answers when [my_table] is missing, as psycopg2 puts
    it in the exception: the message, then the statement with a caret
    under the table name ([col] characters in).  libpq shortens the
    statement line when it is long; the model prints it whole. *)
Definition undefined_table (stmt : string) (col : nat) : exn :=
  mk_exn UndefinedTable
    ("relation " ++ DQ ++ "my_table" ++ DQ ++ " does not exist" ++ LF
     ++ "LINE 1: " ++ stmt ++ LF
     ++ repeat_char " " (8 + col) ++ "^" ++ LF).

Definition select_missing (X : string) : exn :=
  undefined_table
    ("SELECT * FROM my_table WHERE name = " ++ sql_literal X ++ ";") 14.

Definition insert_missing (X : string) : exn :=
  undefined_table
    ("INSERT INTO my_table(name) VALUES(" ++ sql_literal X ++ ");") 12.

(** The table after one more row with the name [X] at the time [t]: its
    id is the next value of the sequence. *)
Definition inserted (tb : my_table) (X : string) (t : datetime) : my_table :=
  mk_table (rows tb ++ [mk_record (next_id tb) (Some X) t]) (next_id tb + 1).

Definition syntax_error : exn :=
  mk_exn ProgrammingError
    ("syntax error at or near " ++ DQ ++ "%" ++ DQ ++ LF).

(** The server runs a statement whose placeholders have been replaced by
    [lits], at the time [now] of its clock: the result set, if the
    statement has one, and the table afterwards. *)
Definition pg_execute (now : datetime) (q : statement) (lits : list string)
    (d : database) : result (option (list tuple)) * database :=
  match q, lits with
  | probeQuery, [msg] => (Ok (Some [[VStr msg]]), d)
  | createTableQuery, [] =>
      match d with
      | None => (Ok None, Some (mk_table [] 1))
      | Some _ => (Ok None, d)
      end
  | writeDataQuery, [X] =>
      match d with
      | None => (Raise (insert_missing X), d)
      | Some t => (Ok None, Some (inserted t X now))
      end
  | readDataQuery, [X] =>
      match d with
      | None => (Raise (select_missing X), d)
      | Some t =>
          (Ok (Some (map tuple_of_record (filter (name_is X) (rows t)))), d)
      end
  | deleteDataQuery, [] => (Ok None, None)
  | _, _ => (Raise syntax_error, d)
  end.

(** ** The processes: state, trace and the monad of the programs *)

Inductive printed :=
| PText (s : string)
| PTuple (t : tuple)
| PNone.

(** What a program does that can be seen from outside, in order. *)
Inductive event :=
| connect_ev                                  (* psycopg2.connect returned *)
| execute_ev (q : statement) (lits : list string)  (* statement sent *)
| cursor_close_ev
| connection_close_ev
| server_close_ev
| print_ev (o : printed)                      (* a line on standard output *)
| send_response_ev (code : nat)
| send_header_ev (keyword val : string)
| end_headers_ev
| wfile_write_ev (body : string).

(** A psycopg2 cursor: whether it is closed, and the rows of its last
    statement that have not been fetched ([None]: no result set). *)
Record cursor := mk_cursor {
  cursor_closed : bool;
  pending : option (list tuple) }.

Record world := mk_world {
  closed : bool;        (* [connection.closed] *)
  db : database;        (* [my_table] on the server *)
  clock : datetime;     (* the server's [current_timestamp] *)
  cur : cursor;         (* the cursor in use *)
  trace : list event }.

Definition M (A : Type) : Type := world -> result A * world.

Definition ret {A} (a : A) : M A := fun w => (Ok a, w).

Definition bind {A B} (m : M A) (k : A -> M B) : M B :=
  fun w =>
    match m w with
    | (Ok a, w') => k a w'
    | (Raise e, w') => (Raise e, w')
    end.

Definition raise {A} (e : exn) : M A := fun w => (Raise e, w).

(** [try: m except Exception as e: h e].  What [m] did before it raised
    stays done. *)
Definition try_except {A} (m : M A) (h : exn -> M A) : M A :=
  fun w =>
    match m w with
    | (Ok a, w') => (Ok a, w')
    | (Raise e, w') => h e w'
    end.

Definition lift {A} (r : result A) : M A := fun w => (r, w).

Declare Scope py_scope.
Delimit Scope py_scope with py.
Notation "x <- c ;; k" := (bind c (fun x => k))
  (at level 61, c at next level, right associativity) : py_scope.
Notation "c ;; k" := (bind c (fun _ => k))
  (at level 61, right associativity) : py_scope.
Local Open Scope py_scope.

Definition emit (ev : event) : M unit :=
  fun w => (Ok tt, mk_world (closed w) (db w) (clock w) (cur w) (trace w ++ [ev])).

Definition set_closed (b : bool) : M unit :=
  fun w => (Ok tt, mk_world b (db w) (clock w) (cur w) (trace w)).

Definition set_cur (c : cursor) : M unit :=
  fun w => (Ok tt, mk_world (closed w) (db w) (clock w) c (trace w)).

Definition set_clock (t : datetime) : M unit :=
  fun w => (Ok tt, mk_world (closed w) (db w) t (cur w) (trace w)).

(** [print(o)] *)
Definition print (o : printed) : M unit := emit (print_ev o).

(** *** psycopg2 *)

Definition NUL : ascii := chr 0.

Definition already_closed (what : string) : exn :=
  mk_exn InterfaceError (what ++ " already closed").

(** [psycopg2.connect(...)] with [autocommit] set: a statement takes
    effect when it is executed, and a failed one leaves the connection
    usable.  A run is modelled from the point where the server has
    accepted the connection. *)
Definition connect : M unit :=
  set_closed false ;; emit connect_ev.

(** [connection.cursor()] *)
Definition connection_cursor : M unit :=
  fun w =>
    if closed w then (Raise (already_closed "connection"), w)
    else set_cur (mk_cursor false None) w.

Definition nul_refused : exn :=
  mk_exn ValueError "A string literal cannot contain NUL (0x00) characters.".

(** Adapting the arguments to the [n] placeholders of a statement: a
    text with a NUL character is refused. *)
Fixpoint adapt (n : nat) (args : list string) : result (list string) :=
  match n, args with
  | O, [] => Ok []
  | O, _ :: _ =>
      Raise (mk_exn TypeError
               "not all arguments converted during string formatting")
  | S _, [] => Raise (mk_exn IndexError "tuple index out of range")
  | S k, a :: r =>
      if contains NUL a
      then Raise nul_refused
      else match adapt k r with
           | Ok l => Ok (a :: l)
           | Raise e => Raise e
           end
  end.

(** A statement without placeholders is sent as it is: the arguments, if
    any were passed, are not looked at. *)
Definition mogrify (q : statement) (args : option (list string))
  : result (list string) :=
  match args, placeholders q with
  | None, _ => Ok []
  | Some _, O => Ok []
  | Some l, n => adapt n l
  end.

(** [cursor.execute(q, args)] *)
Definition execute (q : statement) (args : option (list string)) : M unit :=
  fun w =>
    if cursor_closed (cur w) || closed w
    then (Raise (already_closed "cursor"), w)
    else
      match mogrify q args with
      | Raise e => (Raise e, w)
      | Ok lits =>
          let (r, d) := pg_execute (clock w) q lits (db w) in
          let sent := (trace w ++ [execute_ev q lits])%list in
          match r with
          | Raise e =>
              (Raise e, mk_world (closed w) d (clock w)
                                 (mk_cursor false None) sent)
          | Ok rs =>
              (Ok tt, mk_world (closed w) d (clock w)
                               (mk_cursor false rs) sent)
          end
      end.

Definition no_results : exn :=
  mk_exn ProgrammingError "no results to fetch".

(** [cursor.fetchall()] *)
Definition fetchall : M (list tuple) :=
  fun w =>
    if cursor_closed (cur w) || closed w
    then (Raise (already_closed "cursor"), w)
    else match pending (cur w) with
         | None => (Raise no_results, w)
         | Some rs =>
             (Ok rs, mk_world (closed w) (db w) (clock w)
                              (mk_cursor false (Some [])) (trace w))
         end.

(** [cursor.fetchone()]: [None] when the rows are used up. *)
Definition fetchone : M (option tuple) :=
  fun w =>
    if cursor_closed (cur w) || closed w
    then (Raise (already_closed "cursor"), w)
    else match pending (cur w) with
         | None => (Raise no_results, w)
         | Some [] => (Ok None, w)
         | Some (r :: rs) =>
             (Ok (Some r), mk_world (closed w) (db w) (clock w)
                                    (mk_cursor false (Some rs)) (trace w))
         end.

(** [cursor.close()] *)
Definition cursor_close : M unit :=
  fun w =>
    (Ok tt, mk_world (closed w) (db w) (clock w)
                     (mk_cursor true None) (trace w ++ [cursor_close_ev])).

(** [connection.close()] *)
Definition connection_close : M unit :=
  set_closed true ;; emit connection_close_ev.

(** *** http.server: what the handler writes *)

Definition send_response (code : nat) : M unit := emit (send_response_ev code).
Definition send_header (keyword val : string) : M unit :=
  emit (send_header_ev keyword val).
Definition end_headers : M unit := emit end_headers_ev.

(** [self.wfile.write(bytes(s, "utf-8"))], recorded as the text [s]. *)
Definition wfile_write (s : string) : M unit := emit (wfile_write_ev s).

(** ** main.py *)

(** The opening [{"result": "] and the closing ["}] of the message
    bodies, which the code builds by concatenation. *)
Definition result_open : string :=
  "{" ++ DQ ++ "result" ++ DQ ++ ": " ++ DQ.
Definition result_close : string := DQ ++ "}".

(** [PostgresApiServer.__init__] *)
Definition PostgresApiServer_init : M unit :=
  connection_cursor ;;
  execute createTableQuery None.

(** The [try] block of [do_GET]. *)
Definition do_GET_try (self_path : string) : M unit :=
  connection_cursor ;;
  url <- lift (urlparse self_path) ;;
  let name := dict_get "name" "john" (parse_qsl (query url)) in
  if path url =? "/read" then
    execute readDataQuery (Some [name]) ;;
    records <- fetchall ;;
    send_response 200 ;;
    send_header "Content-type" "application/json" ;;
    end_headers ;;
    wfile_write (json_dump records)
  else if path url =? "/write" then
    execute writeDataQuery (Some [name]) ;;
    send_response 200 ;;
    send_header "Content-type" "application/json" ;;
    end_headers ;;
    wfile_write (result_open ++ "Added record with name:" ++ name
                 ++ " to database" ++ result_close)
  else if path url =? "/delete" then
    execute deleteDataQuery (Some [name]) ;;
    send_response 200 ;;
    send_header "Content-type" "application/json" ;;
    end_headers ;;
    wfile_write (result_open ++ "Deleted all data in the table" ++ result_close)
  else
    send_response 404 ;;
    send_header "Content-type" "application/json" ;;
    end_headers ;;
    wfile_write (result_open ++ "path: " ++ path url ++ " is not valid"
                 ++ result_close).

(** The [except Exception as e] block of [do_GET]. *)
Definition do_GET_except (e : exn) : M unit :=
  send_response 500 ;;
  send_header "Content-type" "application/json" ;;
  end_headers ;;
  wfile_write (result_open
               ++ "some error happened while processing the request: "
               ++ str_exn e ++ result_close).

(** [PostgresApiServer.do_GET], for the request target [self.path]. *)
Definition do_GET (self_path : string) : M unit :=
  try_except (do_GET_try self_path) do_GET_except.

(** [webServer.serve_forever()] over the requests that arrive before the
    keyboard interrupt, each with the time of the server's clock when it
    is handled.  The requests are handled one after the other. *)
Fixpoint serve_forever (requests : list (datetime * string)) : M unit :=
  match requests with
  | [] => ret tt
  | (t, self_path) :: rest =>
      set_clock t ;;
      do_GET self_path ;;
      serve_forever rest
  end.

(** The module body of main.py. *)
Definition main (requests : list (datetime * string)) : M unit :=
  connect ;;
  PostgresApiServer_init ;;
  print (PText "Listening on: http://0.0.0.0:8080") ;;
  serve_forever requests ;;
  emit server_close_ev ;;
  connection_close ;;
  print (PText "Server stopped.").

(** ** guide.py *)


(** [sys.argv[1] if len(sys.argv) > 1 else 'john'] *)
Definition yourName (argv : list string) : string :=
  match argv with
  | _ :: a :: _ => a
  | _ => "john"
  end.


(** A process before it has connected, in front of a server whose
    database is [d] and whose clock shows [t]. *)
Definition boot (d : database) (t : datetime) : world :=
  mk_world true d t (mk_cursor true None) [].

(** The events a computation adds to the trace. *)
Definition emitted {A} (m : M A) (w : world) : list event :=
  skipn (List.length (trace w)) (trace (snd (m w))).

(** ** Notions the properties are stated with *)

Definition rows_of (d : database) : list record :=
  match d with
  | Some t => rows t
  | None => []
  end.

(** The value a query string gives to a key, if it gives one: the last
    one, as in [dict(parse_qsl(query))]. *)
Definition dict_lookup (key : string) (pairs : list (string * string))
  : option string :=
  fold_left (fun acc kv => if String.eqb (fst kv) key then Some (snd kv) else acc)
            pairs None.

(** The name a request asks for: its [name] parameter, or ["john"]. *)
Definition requested_name (url : ParseResult) : string :=
  match dict_lookup "name" (parse_qsl (query url)) with
  | Some v => v
  | None => "john"
  end.

(** The four events of one response. *)
Definition response (code : nat) (body : string) : list event :=
  [send_response_ev code;
   send_header_ev "Content-type" "application/json";
   end_headers_ev;
   wfile_write_ev body].

(** The body of the response to an exception. *)
Definition error_body (e : exn) : string :=
  result_open ++ "some error happened while processing the request: "
  ++ str_exn e ++ result_close.

(** The world [w] after a request: the connection and the clock as they
    were, the table [d], the cursor [cu], and [evs] added to the trace. *)
Definition after (w : world) (d : database) (cu : cursor) (evs : list event)
  : world :=
  mk_world (closed w) d (clock w) cu (trace w ++ evs).

(** The world of main.py once it listens and has handled [requests],
    started at the time [t0] in front of the database [d]. *)
Definition serving (d : database) (t0 : datetime)
    (requests : list (datetime * string)) : world :=
  snd ((connect ;;
        PostgresApiServer_init ;;
        print (PText "Listening on: http://0.0.0.0:8080") ;;
        serve_forever requests) (boot d t0)).

(** The world in which main.py handles its next request, at the time
    [t], after it has handled [requests]: every request the handler ever
    sees is handled in such a world. *)
Definition handling (d : database) (t0 : datetime)
    (requests : list (datetime * string)) (t : datetime) : world :=
  snd (set_clock t (serving d t0 requests)).

Definition noon : datetime := mk_datetime 2024 5 17 12 0 0 0.
Definition later : datetime := mk_datetime 2024 5 17 12 0 1 250.

(** main.py in front of a database without the table: before its first
    request, after one /delete, and after one /write of alice. *)
Definition listening : world := handling None noon [] noon.
Definition dropped : world := handling None noon [(noon, "/delete")] later.
Definition alice_written : world :=
  handling None noon [(noon, "/write?name=alice")] later.

(** *** Notions of the further properties *)


(** The status codes a trace holds, in the order they were sent. *)
Definition responses (tr : list event) : list nat :=
  flat_map (fun ev => match ev with send_response_ev code => [code] | _ => [] end) tr.



(** The ids increase along the list and stay below [bound]. *)
Fixpoint ascending (ids : list Z) (bound : Z) : bool :=
  match ids with
  | [] => true
  | i :: rest =>
      forallb (fun j => (i <? j)%Z) rest && (i <? bound)%Z && ascending rest bound
  end.

(** The ids of the rows increase in the order of insertion and stay
    below the next value of the sequence. *)
Definition ids_in_order (d : database) : bool :=
  match d with
  | None => true
  | Some tb => ascending (map id (rows tb)) (next_id tb)
  end.

(** Letters and digits. *)
Definition is_word (c : ascii) : bool := is_ascii_alpha c || is_digit c.
Definition word (s : string) : bool := forallb_str is_word s.

(** A character that stands for itself inside a JSON string. *)
Definition is_plain (c : ascii) : bool :=
  ((32 <=? ord c) && negb (ord c =? 34) && negb (ord c =? 92))%nat.
Definition plain (s : string) : bool := forallb_str is_plain s.

(** The recogniser run over a part of a text: where it stands after it,
    if it has not rejected. *)
Fixpoint json_steps (st : jstate) (stk : list jctx) (s : string)
  : option (jstate * list jctx) :=
  match s with
  | "" => Some (st, stk)
  | String c r =>
      match json_step st stk c with
      | Some (st', stk') => json_steps st' stk' r
      | None => None
      end
  end.

(** A value has just ended: after a string, an array or a literal, or in
    a number that may end here. *)
Definition value_ended (st : jstate) : Prop :=
  st = JAfter \/ st = JInt \/ st = JZero.

(** The text is one JSON value, read from the start of a value or just
    after the opening bracket of an array. *)
Definition json_item (s : string) : Prop :=
  forall stk, exists st,
    value_ended st
    /\ json_steps JValue stk s = Some (st, stk)
    /\ json_steps JArrStart stk s = Some (st, stk).

(** The characters that split a request target or a query string. *)
Definition specials : list ascii :=
  [":"; "/"; "?"; "#"; ";"; "&"; "="; "%"; "+"; "["; "]"]%char.


(** * Properties *)

(** ** The handler, case by case *)

Lemma dict_get_lookup key default pairs :
  dict_get key default pairs =
  match dict_lookup key pairs with Some v => v | None => default end.
Proof.
  unfold dict_get, dict_lookup.
  change default with (match @None string with Some v => v | None => default end) at 1.
  generalize (@None string).
  induction pairs as [|kv pairs IH]; intros acc; simpl; [reflexivity|].
  destruct (fst kv =? key); rewrite <- IH; reflexivity.
Qed.

Lemma dict_get_name url :
  dict_get "name" "john" (parse_qsl (query url)) = requested_name url.
Proof. apply dict_get_lookup. Qed.

#[local] Arguments urlparse : simpl never.
#[local] Arguments parse_qsl : simpl never.
#[local] Arguments dict_get : simpl never.
#[local] Arguments json_dump : simpl never.
#[local] Arguments undefined_table : simpl never.
#[local] Arguments select_missing : simpl never.
#[local] Arguments insert_missing : simpl never.
#[local] Arguments nul_refused : simpl never.
#[local] Arguments inserted : simpl never.
#[local] Arguments result_open : simpl never.
#[local] Arguments result_close : simpl never.
#[local] Arguments String.append : simpl never.
#[local] Arguments app : simpl never.
#[local] Arguments error_body : simpl never.
#[local] Arguments requested_name : simpl never.
#[local] Arguments yourName : simpl never.

(** Running the primitives of the monad on a world that is known well
    enough for them to compute. *)
Ltac exec :=
  repeat (unfold bind, execute, fetchall, fetchone, mogrify, adapt,
                 send_response, send_header, end_headers, wfile_write,
                 print, emit, set_closed, set_cur, set_clock, cursor_close,
                 connection_close, connect, connection_cursor, lift, ret;
          cbn).

(** The [try] block, case by case. *)
Lemma do_GET_try_run w self_path :
  do_GET_try self_path w =
  if closed w then (Raise (already_closed "connection"), w)
  else
    match urlparse self_path with
    | Raise e => (Raise e, after w (db w) (mk_cursor false None) [])
    | Ok url =>
        let X := requested_name url in
        if path url =? "/read" then
          if contains NUL X
          then (Raise nul_refused, after w (db w) (mk_cursor false None) [])
          else match db w with
               | None =>
                   (Raise (select_missing X),
                    after w None (mk_cursor false None)
                          [execute_ev readDataQuery [X]])
               | Some tb =>
                   (Ok tt,
                    after w (Some tb) (mk_cursor false (Some []))
                          (execute_ev readDataQuery [X]
                           :: response 200
                                (json_dump (map tuple_of_record
                                              (filter (name_is X) (rows tb))))))
               end
        else if path url =? "/write" then
          if contains NUL X
          then (Raise nul_refused, after w (db w) (mk_cursor false None) [])
          else match db w with
               | None =>
                   (Raise (insert_missing X),
                    after w None (mk_cursor false None)
                          [execute_ev writeDataQuery [X]])
               | Some tb =>
                   (Ok tt,
                    after w (Some (inserted tb X (clock w)))
                          (mk_cursor false None)
                          (execute_ev writeDataQuery [X]
                           :: response 200
                                (result_open ++ "Added record with name:" ++ X
                                 ++ " to database" ++ result_close)))
               end
        else if path url =? "/delete" then
          (Ok tt,
           after w None (mk_cursor false None)
                 (execute_ev deleteDataQuery []
                  :: response 200
                       (result_open ++ "Deleted all data in the table"
                        ++ result_close)))
        else
          (Ok tt,
           after w (db w) (mk_cursor false None)
                 (response 404
                    (result_open ++ "path: " ++ path url ++ " is not valid"
                     ++ result_close)))
    end.
Proof.
  destruct w as [c d t cu tr]. unfold do_GET_try, after. cbn.
  destruct c; [reflexivity|]. cbn.
  destruct (urlparse self_path) as [url|e]; cbn.
  2:{ rewrite app_nil_r. reflexivity. }
  rewrite !dict_get_name.
  destruct (path url =? "/read").
  { exec. destruct (contains _ (requested_name url)); exec.
    - rewrite app_nil_r. reflexivity.
    - destruct d; exec; rewrite <- ?app_assoc; reflexivity. }
  destruct (path url =? "/write").
  { exec. destruct (contains _ (requested_name url)); exec.
    - rewrite app_nil_r. reflexivity.
    - destruct d; exec; rewrite <- ?app_assoc; reflexivity. }
  destruct (path url =? "/delete"); exec; rewrite <- ?app_assoc; reflexivity.
Qed.

(** The whole handler: the outcome of the [try] block, or the response
    of the [except] block after what the [try] block did. *)
Lemma do_GET_run w self_path :
  do_GET self_path w =
  match do_GET_try self_path w with
  | (Ok a, w') => (Ok a, w')
  | (Raise e, w') =>
      (Ok tt, after w' (db w') (cur w') (response 500 (error_body e)))
  end.
Proof.
  unfold do_GET, try_except.
  destruct (do_GET_try self_path w) as [[a|e] [c d t cu tr]]; [reflexivity|].
  unfold do_GET_except, after, error_body. exec.
  rewrite <- ?app_assoc. reflexivity.
Qed.

Lemma after_after w d1 cu1 evs1 d2 cu2 evs2 :
  after (after w d1 cu1 evs1) d2 cu2 evs2 = after w d2 cu2 (evs1 ++ evs2).
Proof. unfold after. cbn. rewrite app_assoc. reflexivity. Qed.


(** The handler, case by case: it always returns, and what it leaves
    behind is the world before, the table and the cursor as the
    statement left them, and the events of this one request. *)
Lemma do_GET_table w self_path :
  do_GET self_path w =
  (Ok tt,
   if closed w
   then after w (db w) (cur w)
          (response 500 (error_body (already_closed "connection")))
   else
     match urlparse self_path with
     | Raise e =>
         after w (db w) (mk_cursor false None) (response 500 (error_body e))
     | Ok url =>
         let X := requested_name url in
         if path url =? "/read" then
           if contains NUL X
           then after w (db w) (mk_cursor false None)
                  (response 500 (error_body nul_refused))
           else match db w with
                | None =>
                    after w None (mk_cursor false None)
                      (execute_ev readDataQuery [X]
                       :: response 500 (error_body (select_missing X)))
                | Some tb =>
                    after w (Some tb) (mk_cursor false (Some []))
                      (execute_ev readDataQuery [X]
                       :: response 200
                            (json_dump (map tuple_of_record
                                          (filter (name_is X) (rows tb)))))
                end
         else if path url =? "/write" then
           if contains NUL X
           then after w (db w) (mk_cursor false None)
                  (response 500 (error_body nul_refused))
           else match db w with
                | None =>
                    after w None (mk_cursor false None)
                      (execute_ev writeDataQuery [X]
                       :: response 500 (error_body (insert_missing X)))
                | Some tb =>
                    after w (Some (inserted tb X (clock w)))
                      (mk_cursor false None)
                      (execute_ev writeDataQuery [X]
                       :: response 200
                            (result_open ++ "Added record with name:" ++ X
                             ++ " to database" ++ result_close))
                end
         else if path url =? "/delete" then
           after w None (mk_cursor false None)
             (execute_ev deleteDataQuery []
              :: response 200
                   (result_open ++ "Deleted all data in the table"
                    ++ result_close))
         else
           after w (db w) (mk_cursor false None)
             (response 404
                (result_open ++ "path: " ++ path url ++ " is not valid"
                 ++ result_close))
     end).
Proof.
  rewrite do_GET_run, do_GET_try_run.
  destruct (closed w); [reflexivity|].
  destruct (urlparse self_path) as [url|e]; cbn zeta.
  2:{ rewrite after_after. reflexivity. }
  destruct (path url =? "/read").
  { destruct (contains NUL (requested_name url)).
    - rewrite after_after. reflexivity.
    - destruct (db w); [reflexivity|]. rewrite after_after. reflexivity. }
  destruct (path url =? "/write").
  { destruct (contains NUL (requested_name url)).
    - rewrite after_after. reflexivity.
    - destruct (db w); [reflexivity|]. rewrite after_after. reflexivity. }
  destruct (path url =? "/delete"); reflexivity.
Qed.

Lemma skipn_length_app {A} (l r : list A) : skipn (List.length l) (l ++ r) = r.
Proof. induction l as [|a l IH]; [reflexivity|exact IH]. Qed.

Lemma emitted_after {A} (m : M A) w r d cu evs :
  m w = (r, after w d cu evs) -> emitted m w = evs.
Proof.
  intros H. unfold emitted. rewrite H. cbn. apply skipn_length_app.
Qed.

Lemma do_GET_after w self_path :
  exists d cu evs, do_GET self_path w = (Ok tt, after w d cu evs).
Proof.
  rewrite do_GET_table.
  destruct (closed w); [eauto|].
  destruct (urlparse self_path) as [url|e]; [|eauto]. cbn zeta.
  destruct (path url =? "/read").
  { destruct (contains NUL (requested_name url)); [eauto|].
    destruct (db w); eauto. }
  destruct (path url =? "/write").
  { destruct (contains NUL (requested_name url)); [eauto|].
    destruct (db w); eauto. }
  destruct (path url =? "/delete"); eauto.
Qed.

Lemma serve_forever_cons t self_path rest w :
  serve_forever ((t, self_path) :: rest) w =
  serve_forever rest
    (snd (do_GET self_path (mk_world (closed w) (db w) t (cur w) (trace w)))).
Proof.
  cbn [serve_forever]. unfold bind, set_clock.
  destruct (do_GET_after (mk_world (closed w) (db w) t (cur w) (trace w))
                         self_path) as (d & cu & evs & H).
  rewrite H. reflexivity.
Qed.

Lemma serve_forever_returns requests :
  forall w, fst (serve_forever requests w) = Ok tt
            /\ closed (snd (serve_forever requests w)) = closed w.
Proof.
  induction requests as [|[t self_path] rest IH]; intros w; [split; reflexivity|].
  rewrite serve_forever_cons.
  destruct (do_GET_after (mk_world (closed w) (db w) t (cur w) (trace w))
                         self_path) as (d & cu & evs & H).
  rewrite H. cbn [snd]. destruct (IH (after (mk_world (closed w) (db w) t (cur w) (trace w)) d cu evs)) as [IH1 IH2].
  split; [exact IH1|]. rewrite IH2. reflexivity.
Qed.

(** main.py handles every request on an open connection. *)
Lemma serving_is_open d t requests : closed (serving d t requests) = false.
Proof.
  unfold serving.
  set (w0 := snd ((connect ;; PostgresApiServer_init ;;
                   print (PText "Listening on: http://0.0.0.0:8080")) (boot d t))).
  assert (H0 : (connect ;; PostgresApiServer_init ;;
                print (PText "Listening on: http://0.0.0.0:8080") ;;
                serve_forever requests) (boot d t)
               = serve_forever requests w0).
  { subst w0. unfold boot, PostgresApiServer_init. destruct d; exec; reflexivity. }
  rewrite H0. rewrite (proj2 (serve_forever_returns requests w0)).
  subst w0. unfold boot, PostgresApiServer_init. destruct d; exec; reflexivity.
Qed.



Lemma handling_clock d t0 requests t : clock (handling d t0 requests t) = t.
Proof. reflexivity. Qed.

(** ** The routes of the handler *)





(** C9: a GET request whose path is /read leaves the table as it was,
    in any state: whether it exists, its rows with their ids, names and
    dates, and the sequence of the ids. *)
Theorem read_leaves_table w self_path url :
  urlparse self_path = Ok url ->
  path url = "/read" ->
  db (snd (do_GET self_path w)) = db w.
Proof.
  intros Hurl Hpath. rewrite do_GET_table. cbn [snd].
  destruct (closed w); [reflexivity|].
  rewrite Hurl. cbn zeta. rewrite Hpath, String.eqb_refl.
  destruct (contains NUL (requested_name url)); [reflexivity|].
  destruct (db w); reflexivity.
Qed.

(** ** The handler and exceptions *)




(** C7: the date of a row is the time of the server's clock when the
    row is inserted, whatever the client sends.  After any request to
    the handler, and after the insert statement of guide.py for any
    command line, a row of the table that was not there before carries
    the server's time. *)
Theorem date_is_server_assigned w :
  (forall self_path r,
      In r (rows_of (db (snd (do_GET self_path w)))) ->
      In r (rows_of (db w)) \/ date r = clock w)
  /\ (forall argv r,
         In r (rows_of (db (snd (execute addDataQuery
                                         (Some [yourName argv]) w)))) ->
         In r (rows_of (db w)) \/ date r = clock w).
Proof.
  assert (Hins : forall tb X r,
             In r (rows (inserted tb X (clock w))) ->
             In r (rows tb) \/ date r = clock w).
  { intros tb X r Hin. cbn in Hin. apply in_app_or in Hin.
    destruct Hin as [Hin|[<-|[]]]; auto. }
  split.
  - intros self_path r. rewrite do_GET_table. cbn [snd].
    destruct (closed w); [auto|].
    destruct (urlparse self_path) as [url|e]; [|auto]. cbn zeta.
    destruct (path url =? "/read").
    { destruct (contains NUL (requested_name url)); [auto|].
      destruct (db w); auto. }
    destruct (path url =? "/write").
    { destruct (contains NUL (requested_name url)); [auto|].
      destruct (db w) as [tb|]; [|auto]. apply Hins. }
    destruct (path url =? "/delete"); [intros []|auto].
  - intros argv r. unfold addDataQuery, execute.
    destruct (cursor_closed (cur w) || closed w); [auto|].
    cbn [mogrify placeholders adapt].
    destruct (contains NUL (yourName argv)); [auto|].
    cbn [pg_execute]. destruct (db w) as [tb|]; [|auto].
    cbn [snd db]. apply Hins.
Qed.

(** ** Write, then read *)



(** ** guide.py *)




(** ** Bodies that are not JSON *)

(** C10: for some inputs the body, served as application/json, is not a
    valid JSON text.  The confirmation of /write for a name with a double
    quote in it (escaped as %22 in the request), the 404 body for a path
    with a double quote in it, and the 500 body for a read after the
    table was dropped (the message of the server quotes the name of the
    table) are such bodies. *)
Theorem bodies_not_always_json :
  (exists body,
      emitted (do_GET "/write?name=a%22b") listening =
      execute_ev writeDataQuery ["a" ++ DQ ++ "b"] :: response 200 body
      /\ json_valid body = false)
  /\ (exists body,
         emitted (do_GET ("/bo" ++ DQ ++ "gus")) listening = response 404 body
         /\ json_valid body = false)
  /\ (exists body,
         emitted (do_GET "/read") dropped =
         execute_ev readDataQuery ["john"] :: response 500 body
         /\ json_valid body = false).
Proof.
  split; [|split]; eexists; split;
    try (vm_compute; reflexivity).
Qed.

(** ** The properties at concrete requests *)

(** The scenario of the specification: alice is written, then read. *)
Example scenario_alice :
  trace (serving None noon [(noon, "/write?name=alice");
                            (later, "/read?name=alice")]) =
  ([connect_ev; execute_ev createTableQuery [];
    print_ev (PText "Listening on: http://0.0.0.0:8080");
    execute_ev writeDataQuery ["alice"]]
   ++ response 200
        (result_open ++ "Added record with name:alice to database"
         ++ result_close)%string
   ++ [execute_ev readDataQuery ["alice"]]
   ++ response 200
        ("[" ++ LF ++ "    [" ++ LF ++ "        1," ++ LF
         ++ "        " ++ DQ ++ "alice" ++ DQ ++ "," ++ LF
         ++ "        " ++ DQ ++ "2024-05-17 12:00:00" ++ DQ ++ LF
         ++ "    ]" ++ LF ++ "]")%string)%list.
Proof. vm_compute. reflexivity. Qed.

(** The recogniser accepts the bodies of that scenario. *)
Example scenario_alice_is_json :
  json_valid (result_open ++ "Added record with name:alice to database"
              ++ result_close) = true
  /\ json_valid (json_dump [[VInt 1; VStr "alice"; VDatetime noon]]) = true
  /\ json_valid (json_dump []) = true.
Proof. repeat split; vm_compute; reflexivity. Qed.

(** A name with a double quote does not always spoil the body. *)
Example quoted_name_still_json :
  json_valid (result_open ++ "Added record with name:"
              ++ (DQ ++ ", " ++ DQ ++ "x" ++ DQ ++ ": " ++ DQ)
              ++ " to database" ++ result_close) = true.
Proof. vm_compute. reflexivity. Qed.










Lemma date_is_server_assigned_witness :
  In (mk_record 1 (Some "alice") noon)
     (rows_of (db (snd (do_GET "/write?name=alice&date=1999-01-01"
                               listening))))
  /\ (In (mk_record 1 (Some "alice") noon) (rows_of (db listening))
      \/ date (mk_record 1 (Some "alice") noon) = clock listening).
Proof.
  split; [left; reflexivity|].
  apply (proj1 (date_is_server_assigned listening)
           "/write?name=alice&date=1999-01-01").
  left. reflexivity.
Defined.


Lemma read_leaves_table_witness :
  urlparse "/read?name=alice" = Ok (mk_url "" "" "/read" "" "name=alice" "")
  /\ db alice_written = Some (mk_table [mk_record 1 (Some "alice") noon] 2)
  /\ db (snd (do_GET "/read?name=alice" alice_written)) = db alice_written.
Proof.
  split; [reflexivity|]. split; [reflexivity|].
  apply (read_leaves_table alice_written "/read?name=alice"
           (mk_url "" "" "/read" "" "name=alice" "") eq_refl eq_refl).
Defined.

(** * Further properties *)

(** ** Start and stop of main.py *)

Lemma serving_nil d t0 :
  serving d t0 [] =
  mk_world false
    (Some (match d with Some tb => tb | None => mk_table [] 1 end))
    t0 (mk_cursor false None)
    [connect_ev; execute_ev createTableQuery [];
     print_ev (PText "Listening on: http://0.0.0.0:8080")].
Proof. unfold serving, boot, PostgresApiServer_init. destruct d; exec; reflexivity. Qed.

Lemma serve_forever_app rs1 rs2 :
  forall w, serve_forever (rs1 ++ rs2) w = serve_forever rs2 (snd (serve_forever rs1 w)).
Proof.
  induction rs1 as [|[t p] rs1 IH]; intros w; [reflexivity|].
  change (((t, p) :: rs1) ++ rs2)%list with ((t, p) :: (rs1 ++ rs2))%list.
  rewrite !serve_forever_cons. apply IH.
Qed.

Lemma serving_serve d t0 requests :
  serving d t0 requests = snd (serve_forever requests (serving d t0 [])).
Proof.
  rewrite serving_nil. unfold serving, boot, PostgresApiServer_init.
  destruct d; exec; reflexivity.
Qed.

Lemma serving_app d t0 rs1 rs2 :
  serving d t0 (rs1 ++ rs2) = snd (serve_forever rs2 (serving d t0 rs1)).
Proof.
  rewrite (serving_serve d t0 (rs1 ++ rs2)), serve_forever_app, <- serving_serve.
  reflexivity.
Qed.

(** X1: [PostgresApiServer.__init__] on a closed connection raises and
    changes nothing; on an open one it returns, the table exists
    afterwards with exactly the rows and the sequence it had (empty,
    with the sequence at 1, when it was missing), and a second call
    changes nothing more. *)
Theorem init_ensures_table w :
  (closed w = true ->
   PostgresApiServer_init w = (Raise (already_closed "connection"), w))
  /\ (closed w = false ->
      fst (PostgresApiServer_init w) = Ok tt
      /\ db (snd (PostgresApiServer_init w))
         = Some (match db w with Some tb => tb | None => mk_table [] 1 end)
      /\ db (snd (PostgresApiServer_init (snd (PostgresApiServer_init w))))
         = db (snd (PostgresApiServer_init w))).
Proof.
  destruct w as [c d t cu tr]. unfold PostgresApiServer_init. cbn [closed db].
  split; intros ->.
  - reflexivity.
  - destruct d; exec; auto.
Qed.

Lemma init_ensures_table_witness :
  closed (snd (connect (boot (Some (mk_table [mk_record 7 (Some "ann") noon] 8)) later))) = false
  /\ db (snd (PostgresApiServer_init
                (snd (connect (boot (Some (mk_table [mk_record 7 (Some "ann") noon] 8)) later)))))
     = Some (mk_table [mk_record 7 (Some "ann") noon] 8).
Proof.
  split; [reflexivity|].
  apply (proj1 (proj2 (proj2 (init_ensures_table
           (snd (connect (boot (Some (mk_table [mk_record 7 (Some "ann") noon] 8)) later))))
           eq_refl))).
Defined.

Lemma bind_ok {A B} (m : M A) (k : A -> M B) w a w' :
  m w = (Ok a, w') -> bind m k w = k a w'.
Proof. intros H. unfold bind. rewrite H. reflexivity. Qed.

Lemma serve_forever_ok requests w :
  serve_forever requests w = (Ok tt, snd (serve_forever requests w)).
Proof.
  rewrite <- (proj1 (serve_forever_returns requests w)) at 1.
  apply surjective_pairing.
Qed.

(** The whole run of main.py. *)
Lemma main_ends d t0 requests :
  main requests (boot d t0) =
  (Ok tt,
   mk_world true (db (serving d t0 requests)) (clock (serving d t0 requests))
     (cur (serving d t0 requests))
     (trace (serving d t0 requests)
      ++ [server_close_ev; connection_close_ev;
          print_ev (PText "Server stopped.")])).
Proof.
  unfold main.
  assert (H0 : (connect ;; PostgresApiServer_init ;;
                print (PText "Listening on: http://0.0.0.0:8080") ;;
                serve_forever requests) (boot d t0)
               = (Ok tt, serving d t0 requests)).
  { rewrite (serving_serve d t0 requests), serving_nil.
    rewrite <- serve_forever_ok.
    unfold boot, PostgresApiServer_init. destruct d; exec; reflexivity. }
  revert H0. unfold boot, PostgresApiServer_init.
  destruct d; exec; intros H0;
    destruct (serve_forever requests _) as [r w']; injection H0 as -> <-;
    rewrite <- !app_assoc; reflexivity.
Qed.

(** ** One response for each request *)

Lemma responses_app l1 l2 : responses (l1 ++ l2) = (responses l1 ++ responses l2)%list.
Proof. apply flat_map_app. Qed.

Ltac finish := split; [reflexivity|]; split; [auto 10 | eauto 10].

(** X3: in any state and for any request the handler sends exactly one
    response, last: the status 200, 404 or 500, the header
    Content-type: application/json, the end of the headers and one body;
    before it at most one statement went to the database. *)
Theorem one_response w self_path :
  exists d cu sent code body,
    do_GET self_path w = (Ok tt, after w d cu (sent ++ response code body))
    /\ (code = 200 \/ code = 404 \/ code = 500)
    /\ (sent = [] \/ exists q lits, sent = [execute_ev q lits]).
Proof.
  rewrite do_GET_table.
  destruct (closed w).
  { exists (db w), (cur w), [], 500. eexists. finish. }
  destruct (urlparse self_path) as [url|e].
  2:{ eexists _, _, [], 500, _. finish. }
  cbn zeta.
  destruct (path url =? "/read").
  { destruct (contains NUL (requested_name url)).
    - eexists _, _, [], 500, _. finish.
    - destruct (db w).
      + eexists _, _, [_], 200, _. finish.
      + eexists _, _, [_], 500, _. finish. }
  destruct (path url =? "/write").
  { destruct (contains NUL (requested_name url)).
    - eexists _, _, [], 500, _. finish.
    - destruct (db w).
      + eexists _, _, [_], 200, _. finish.
      + eexists _, _, [_], 500, _. finish. }
  destruct (path url =? "/delete").
  - eexists _, _, [_], 200, _. finish.
  - eexists _, _, [], 404, _. finish.
Qed.

(** The status the handler answers with. *)
Lemma do_GET_code w self_path :
  exists d cu evs code,
    do_GET self_path w = (Ok tt, after w d cu evs)
    /\ responses evs = [code]
    /\ (code = 200 \/ code = 404 \/ code = 500).
Proof.
  rewrite do_GET_table.
  destruct (closed w); [eexists _, _, _, 500; auto 10|].
  destruct (urlparse self_path) as [url|e]; [|eexists _, _, _, 500; auto 10].
  cbn zeta.
  destruct (path url =? "/read").
  { destruct (contains NUL (requested_name url)); [eexists _, _, _, 500; auto 10|].
    destruct (db w); [eexists _, _, _, 200|eexists _, _, _, 500]; auto 10. }
  destruct (path url =? "/write").
  { destruct (contains NUL (requested_name url)); [eexists _, _, _, 500; auto 10|].
    destruct (db w); [eexists _, _, _, 200|eexists _, _, _, 500]; auto 10. }
  destruct (path url =? "/delete");
    [eexists _, _, _, 200|eexists _, _, _, 404]; auto 10.
Qed.

Lemma serve_forever_trace requests :
  forall w, exists evs,
    trace (snd (serve_forever requests w)) = (trace w ++ evs)%list
    /\ List.length (responses evs) = List.length requests
    /\ Forall (fun code => code = 200 \/ code = 404 \/ code = 500) (responses evs).
Proof.
  induction requests as [|[t p] rest IH]; intros w.
  { exists []. cbn. rewrite app_nil_r. auto. }
  rewrite serve_forever_cons.
  set (w1 := mk_world (closed w) (db w) t (cur w) (trace w)).
  destruct (do_GET_code w1 p) as (d & cu & sent & code & H & Hsent & Hcode).
  rewrite H. cbn [snd].
  destruct (IH (after w1 d cu sent)) as (evs & Htr & Hlen & Hall).
  exists (sent ++ evs)%list.
  rewrite Htr. cbn [after trace w1]. split; [symmetry; apply app_assoc|].
  rewrite responses_app, Hsent.
  change ([code] ++ responses evs)%list with (code :: responses evs).
  split; [cbn [List.length]; f_equal; exact Hlen|]. constructor; assumption.
Qed.

(** X4: main.py sends as many responses as it has handled requests,
    each with the status 200, 404 or 500. *)
Theorem one_response_per_request d t0 requests :
  List.length (responses (trace (serving d t0 requests))) = List.length requests
  /\ Forall (fun code => code = 200 \/ code = 404 \/ code = 500)
            (responses (trace (serving d t0 requests))).
Proof.
  rewrite serving_serve.
  destruct (serve_forever_trace requests (serving d t0 [])) as (evs & -> & Hlen & Hall).
  rewrite serving_nil. cbn [trace]. rewrite responses_app.
  change (responses [connect_ev; execute_ev createTableQuery [];
                     print_ev (PText "Listening on: http://0.0.0.0:8080")])
    with (@nil nat).
  split; assumption.
Qed.

(** X2: whatever the requests, main.py ends normally.  It connects,
    makes sure the table exists and prints where it listens; then come
    the events of the requests, one response for each; after the last
    request it closes the listener, closes the connection and prints
    that it stopped.  The table is left as the last request left it. *)
Theorem main_run d t0 requests :
  exists handled,
    main requests (boot d t0) =
    (Ok tt,
     mk_world true (db (serving d t0 requests)) (clock (serving d t0 requests))
       (cur (serving d t0 requests))
       ([connect_ev; execute_ev createTableQuery [];
         print_ev (PText "Listening on: http://0.0.0.0:8080")]
        ++ handled
        ++ [server_close_ev; connection_close_ev;
            print_ev (PText "Server stopped.")]))
    /\ List.length (responses handled) = List.length requests.
Proof.
  destruct (serve_forever_trace requests (serving d t0 []))
    as (handled & Htr & Hlen & _).
  exists handled. split; [|exact Hlen].
  rewrite main_ends. do 2 f_equal.
  rewrite (serving_serve d t0 requests), Htr, serving_nil. cbn [trace].
  symmetry. apply app_assoc.
Qed.

(** ** When the table is missing *)





(** X7: when main.py is started again on the database an earlier run
    left, the table is there before the first request: with the rows and
    the sequence the earlier run left, or empty with the sequence at 1
    when the earlier run had dropped it. *)
Theorem restart_keeps_or_recreates d t0 requests t1 :
  db (serving (db (snd (main requests (boot d t0)))) t1 []) =
  Some (match db (serving d t0 requests) with
        | Some tb => tb
        | None => mk_table [] 1
        end).
Proof. rewrite main_ends, serving_nil. reflexivity. Qed.

(** ** Reading *)



(** X10: while the table lives its rows are only appended to: if the
    table exists after some further requests, it existed before them,
    its rows then are the first rows now, unchanged and in the same
    order, and at most one row was added for each further request. *)
Theorem rows_are_only_appended d t0 earlier afterwards tb :
  db (serving d t0 (earlier ++ afterwards)) = Some tb ->
  exists tb0 added,
    db (serving d t0 earlier) = Some tb0
    /\ rows tb = (rows tb0 ++ added)%list
    /\ (List.length added <= List.length afterwards)%nat.
Proof.
  rewrite serving_app.
  assert (Hopen := serving_is_open d t0 earlier).
  revert Hopen. generalize (serving d t0 earlier). clear.
  induction afterwards as [|[t p] rest IH]; intros w Hopen H.
  { exists tb, []. cbn in H. rewrite app_nil_r. auto. }
  rewrite serve_forever_cons in H.
  set (w1 := mk_world (closed w) (db w) t (cur w) (trace w)) in *.
  assert (Hstep : closed (snd (do_GET p w1)) = false
                  /\ (db (snd (do_GET p w1)) = None
                      \/ exists tb0 extra,
                           db w = Some tb0
                           /\ rows_of (db (snd (do_GET p w1))) = (rows tb0 ++ extra)%list
                           /\ (List.length extra <= 1)%nat)).
  { rewrite do_GET_table. cbn [snd]. change (closed w1) with (closed w).
    rewrite Hopen. change (db w1) with (db w). change (clock w1) with t.
    destruct (urlparse p) as [url|e].
    2:{ split; [exact Hopen|]. cbn [after db].
        destruct (db w) as [tb0|]; [right|left; reflexivity].
        exists tb0, []. rewrite app_nil_r. auto. }
    cbn zeta.
    assert (Hsame : closed w = false /\
              (db w = None \/ exists tb0 extra, db w = Some tb0 /\
                  rows_of (db w) = (rows tb0 ++ extra)%list /\ (List.length extra <= 1)%nat)).
    { split; [exact Hopen|]. destruct (db w) as [tb0|]; [right|left; reflexivity].
      exists tb0, []. cbn. rewrite app_nil_r. auto. }
    destruct (path url =? "/read").
    { destruct (contains NUL (requested_name url)); [exact Hsame|].
      destruct (db w) eqn:Hdb; cbn [after db closed]; exact Hsame. }
    destruct (path url =? "/write").
    { destruct (contains NUL (requested_name url)); [exact Hsame|].
      destruct (db w) as [tb0|] eqn:Hdb; cbn [after db closed]; [|exact Hsame].
      split; [exact Hopen|]. right. exists tb0, [mk_record (next_id tb0) (Some (requested_name url)) t].
      auto. }
    destruct (path url =? "/delete"); cbn [after db closed]; [auto|exact Hsame]. }
  destruct Hstep as [Hopen1 Hstep].
  destruct (IH _ Hopen1 H) as (tb1 & added & Hdb1 & Hrows & Hlen).
  destruct Hstep as [Hnone|(tb0 & extra & Hdb0 & Hrows0 & Hlen0)]; [congruence|].
  exists tb0, (extra ++ added)%list. split; [exact Hdb0|].
  rewrite Hdb1 in Hrows0. cbn [rows_of] in Hrows0.
  rewrite Hrows, Hrows0, app_assoc. split; [reflexivity|].
  rewrite length_app. cbn [List.length]. apply (Nat.add_le_mono _ 1 _ _ Hlen0 Hlen).
Qed.



(** ** The ids of the rows *)

Lemma serve_forever_invariant (P : database -> Prop) :
  P None ->
  (forall tb X t, P (Some tb) -> P (Some (inserted tb X t))) ->
  forall requests w, P (db w) -> P (db (snd (serve_forever requests w))).
Proof.
  intros Hnone Hins. induction requests as [|[t p] rest IH]; intros w Hw; [exact Hw|].
  rewrite serve_forever_cons. apply IH.
  rewrite do_GET_table. cbn [snd closed db clock].
  destruct (closed w); [exact Hw|].
  destruct (urlparse p) as [url|e]; [|exact Hw]. cbn zeta.
  destruct (path url =? "/read").
  { destruct (contains NUL (requested_name url)); [exact Hw|].
    destruct (db w); [exact Hw|exact Hnone]. }
  destruct (path url =? "/write").
  { destruct (contains NUL (requested_name url)); [exact Hw|].
    destruct (db w); [apply Hins; exact Hw|exact Hnone]. }
  destruct (path url =? "/delete"); [exact Hnone|exact Hw].
Qed.

Lemma ascending_below ids bound :
  ascending ids bound = true -> Forall (fun i => (i < bound)%Z) ids.
Proof.
  induction ids as [|i rest IH]; intros H; [constructor|].
  cbn in H. apply andb_prop in H. destruct H as [H H2].
  apply andb_prop in H. destruct H as [_ H1].
  constructor; [apply Z.ltb_lt; exact H1|apply IH; exact H2].
Qed.

Lemma ascending_next ids bound :
  ascending ids bound = true -> ascending (ids ++ [bound]) (bound + 1) = true.
Proof.
  induction ids as [|i rest IH]; intros H.
  { change (([] ++ [bound])%list) with [bound]. cbn [ascending forallb andb].
    rewrite (proj2 (Z.ltb_lt bound (bound + 1))); [reflexivity|].
    apply Z.lt_succ_diag_r. }
  cbn in H. apply andb_prop in H. destruct H as [H H2].
  apply andb_prop in H. destruct H as [H0 H1].
  change ((i :: rest) ++ [bound])%list with (i :: (rest ++ [bound]))%list.
  cbn [ascending]. rewrite (IH H2), forallb_app, H0. cbn [forallb].
  rewrite H1. apply Z.ltb_lt in H1.
  rewrite (proj2 (Z.ltb_lt i (bound + 1))); [reflexivity|].
  apply Z.lt_lt_succ_r. exact H1.
Qed.

Lemma ascending_NoDup ids bound : ascending ids bound = true -> NoDup ids.
Proof.
  induction ids as [|i rest IH]; intros H; [constructor|].
  cbn in H. apply andb_prop in H. destruct H as [H H2].
  apply andb_prop in H. destruct H as [H0 _].
  constructor; [|apply IH; exact H2].
  intros Hin. rewrite forallb_forall in H0. apply H0 in Hin.
  apply Z.ltb_lt in Hin. exact (Z.lt_irrefl _ Hin).
Qed.

(** X11: if the ids of the table increase in the order of its rows and
    lie below the next value of the sequence when main.py starts, they
    do so after any requests: the ids are pairwise different and every
    new row gets an id above all earlier ones. *)
Theorem ids_stay_in_order d t0 requests tb :
  ids_in_order d = true ->
  db (serving d t0 requests) = Some tb ->
  ascending (map id (rows tb)) (next_id tb) = true
  /\ NoDup (map id (rows tb))
  /\ Forall (fun r => (id r < next_id tb)%Z) (rows tb).
Proof.
  intros Hd Hdb.
  assert (H : ids_in_order (db (serving d t0 requests)) = true).
  { rewrite serving_serve.
    apply (serve_forever_invariant (fun d => ids_in_order d = true)).
    - reflexivity.
    - intros tb0 X t H. unfold ids_in_order, inserted. cbn [rows next_id].
      rewrite map_app. apply ascending_next. exact H.
    - rewrite serving_nil. cbn [db]. destruct d; [exact Hd|reflexivity]. }
  rewrite Hdb in H. cbn [ids_in_order] in H.
  split; [exact H|]. split; [exact (ascending_NoDup _ _ H)|].
  apply ascending_below in H. rewrite Forall_map in H. exact H.
Qed.

(** X12: started on a database without the table, main.py numbers the
    rows it inserts 1, 2, 3, ... in the order of the writes. *)
Theorem fresh_ids_count_from_one t0 requests tb :
  db (serving None t0 requests) = Some tb ->
  map id (rows tb) = map Z.of_nat (seq 1 (List.length (rows tb)))
  /\ next_id tb = Z.of_nat (S (List.length (rows tb))).
Proof.
  intros Hdb.
  assert (H : match db (serving None t0 requests) with
              | None => True
              | Some tb =>
                  map id (rows tb) = map Z.of_nat (seq 1 (List.length (rows tb)))
                  /\ next_id tb = Z.of_nat (S (List.length (rows tb)))
              end).
  { rewrite serving_serve.
    apply (serve_forever_invariant
             (fun d => match d with
                       | None => True
                       | Some tb =>
                           map id (rows tb)
                           = map Z.of_nat (seq 1 (List.length (rows tb)))
                           /\ next_id tb = Z.of_nat (S (List.length (rows tb)))
                       end)).
    - exact I.
    - intros tb0 X t [Hids Hnext]. unfold inserted. cbn [rows next_id].
      rewrite map_app, length_app, Nat.add_1_r, seq_S, map_app, Hids, Hnext.
      cbn [map id List.length Nat.add]. split; [reflexivity|].
      rewrite (Nat2Z.inj_succ (S _)). reflexivity.
    - rewrite serving_nil. cbn. auto. }
  rewrite Hdb in H. exact H.
Qed.



(** ** Requests in their plain form *)

Lemma is_word_not_special c :
  is_word c = true ->
  ~ In c specials /\ is_unsafe_url_byte c = false /\ c <> NUL.
Proof.
  destruct c as [[] [] [] [] [] [] [] []]; vm_compute; intros H;
    try discriminate H;
    (split; [intros Hin; repeat (destruct Hin as [Hin|Hin]; [discriminate Hin|]);
             exact Hin
            |split; [reflexivity|discriminate]]).
Qed.

Lemma word_contains x s :
  (In x specials \/ x = NUL) -> word s = true -> contains x s = false.
Proof.
  intros Hx. induction s as [|c s IH]; intros H; [reflexivity|].
  cbn in H. apply andb_prop in H. destruct H as [Hc Hs].
  cbn [contains]. rewrite (IH Hs), orb_false_r.
  apply Ascii.eqb_neq. intros ->.
  destruct (is_word_not_special c Hc) as (H1 & _ & H2).
  destruct Hx as [Hx|Hx]; [exact (H1 Hx)|exact (H2 Hx)].
Qed.

Lemma split_first_absent x s : contains x s = false -> split_first x s = None.
Proof.
  induction s as [|c s IH]; intros H; [reflexivity|].
  cbn in H. apply orb_false_elim in H. destruct H as [Hc Hs].
  cbn [split_first]. rewrite Hc, (IH Hs). reflexivity.
Qed.

Lemma split_first_at x a b :
  contains x a = false -> split_first x (a ++ String x b) = Some (a, b).
Proof.
  induction a as [|c a IH]; intros H.
  - change ("" ++ String x b) with (String x b). cbn [split_first].
    rewrite Ascii.eqb_refl. reflexivity.
  - cbn in H. apply orb_false_elim in H. destruct H as [Hc Ha].
    change (String c a ++ String x b) with (String c (a ++ String x b)).
    cbn [split_first]. rewrite Hc, (IH Ha). reflexivity.
Qed.

Lemma contains_app x a b : contains x (a ++ b) = contains x a || contains x b.
Proof.
  induction a as [|c a IH]; [reflexivity|].
  change (String c a ++ b) with (String c (a ++ b)). cbn [contains].
  rewrite IH, orb_assoc. reflexivity.
Qed.

Lemma remove_chars_app p a b :
  remove_chars p (a ++ b) = remove_chars p a ++ remove_chars p b.
Proof.
  induction a as [|c a IH]; [reflexivity|].
  change (String c a ++ b) with (String c (a ++ b)). cbn [remove_chars].
  rewrite IH. destruct (p c); reflexivity.
Qed.

Lemma word_keeps_bytes s : word s = true -> remove_chars is_unsafe_url_byte s = s.
Proof.
  induction s as [|c s IH]; intros H; [reflexivity|].
  cbn in H. apply andb_prop in H. destruct H as [Hc Hs].
  cbn [remove_chars].
  rewrite (proj1 (proj2 (is_word_not_special c Hc))), (IH Hs). reflexivity.
Qed.

Lemma word_plus s : word s = true -> map_str plus_to_space s = s.
Proof.
  induction s as [|c s IH]; intros H; [reflexivity|].
  cbn in H. apply andb_prop in H. destruct H as [Hc Hs].
  cbn [map_str]. rewrite (IH Hs). unfold plus_to_space.
  replace (Ascii.eqb c "+") with false; [reflexivity|].
  symmetry. apply Ascii.eqb_neq. intros ->.
  apply (proj1 (is_word_not_special _ Hc)). unfold specials. cbn. tauto.
Qed.

Lemma word_unquote s : word s = true -> unquote s = s.
Proof.
  induction s as [|c s IH]; intros H; [reflexivity|].
  cbn in H. apply andb_prop in H. destruct H as [Hc Hs].
  cbn [unquote]. rewrite (IH Hs).
  replace (Ascii.eqb c "%") with false; [reflexivity|].
  symmetry. apply Ascii.eqb_neq. intros ->.
  apply (proj1 (is_word_not_special _ Hc)). unfold specials. cbn. tauto.
Qed.

Lemma split_on_absent x s : contains x s = false -> split_on x s = [s].
Proof.
  induction s as [|c s IH]; intros H; [reflexivity|].
  cbn in H. apply orb_false_elim in H. destruct H as [Hc Hs].
  cbn [split_on]. rewrite (IH Hs), Hc. reflexivity.
Qed.

Lemma split_scheme_slash r : split_scheme (String "/" r) = ("", String "/" r).
Proof.
  unfold split_scheme. cbn [split_first].
  change (Ascii.eqb ":" "/") with false. cbn iota.
  destruct (split_first ":" r) as [[a b]|]; reflexivity.
Qed.

Lemma one_slash {A} c r (yes : string -> A) (no : A) :
  c <> "/"%char ->
  match String "/" (String c r) with
  | String "/" (String "/" r') => yes r'
  | _ => no
  end = no.
Proof.
  destruct c as [[] [] [] [] [] [] [] []]; intros H; try reflexivity.
  destruct H. reflexivity.
Qed.

(** A target made of one slash, a word, and a query without [#], tab,
    CR or LF. *)
Lemma urlparse_route route q :
  word route = true ->
  contains "#" q = false ->
  remove_chars is_unsafe_url_byte q = q ->
  urlparse ("/" ++ route ++ String "?" q)
  = Ok (mk_url "" "" ("/" ++ route) "" q "").
Proof.
  intros Hroute Hq1 Hq2.
  assert (Hurl : urlsplit ("/" ++ route ++ String "?" q)
                 = Ok (mk_url "" "" ("/" ++ route) "" q "")).
  { unfold urlsplit.
    change ("/" ++ route ++ String "?" q) with (String "/" (route ++ String "?" q)).
    cbn [lstrip]. change (is_c0_control_or_space "/") with false. cbn iota.
    cbn [remove_chars]. change (is_unsafe_url_byte "/") with false. cbn iota.
    rewrite remove_chars_app, (word_keeps_bytes _ Hroute).
    cbn [remove_chars]. change (is_unsafe_url_byte "?") with false. cbn iota.
    rewrite Hq2, split_scheme_slash.
    assert (Hnl : forall A (yes : string -> A) (no : A),
               match String "/" (route ++ String "?" q) with
               | String "/" (String "/" r') => yes r'
               | _ => no
               end = no).
    { intros A yes no. destruct route as [|c route].
      - change ("" ++ String "?" q) with (String "?" q).
        apply (one_slash "?" q yes no). discriminate.
      - change (String c route ++ String "?" q)
          with (String c (route ++ String "?" q)).
        apply (one_slash c _ yes no). cbn in Hroute. apply andb_prop in Hroute.
        intros ->. destruct Hroute as [Hc _]. discriminate Hc. }
    rewrite Hnl.
    change (String "/" (route ++ String "?" q))
      with (("/" ++ route) ++ String "?" q).
    rewrite (split_first_absent "#"), (split_first_at "?").
    - reflexivity.
    - change (contains "?" ("/" ++ route)) with (contains "?" route).
      apply word_contains; [left; unfold specials; cbn; tauto|exact Hroute].
    - rewrite contains_app. cbn [contains]. rewrite Hq1.
      change (contains "#" ("/" ++ route)) with (contains "#" route).
      rewrite word_contains; [reflexivity|left; unfold specials; cbn; tauto|exact Hroute]. }
  unfold urlparse. rewrite Hurl. cbn [scheme path existsb uses_params].
  change (contains ";" ("/" ++ route)) with (contains ";" route).
  rewrite word_contains; [reflexivity|left; unfold specials; cbn; tauto|exact Hroute].
Qed.

Lemma urlparse_bare route :
  word route = true ->
  urlparse ("/" ++ route) = Ok (mk_url "" "" ("/" ++ route) "" "" "").
Proof.
  intros Hroute.
  assert (Hurl : urlsplit ("/" ++ route) = Ok (mk_url "" "" ("/" ++ route) "" "" "")).
  { unfold urlsplit.
    change ("/" ++ route) with (String "/" route).
    cbn [lstrip]. change (is_c0_control_or_space "/") with false. cbn iota.
    cbn [remove_chars]. change (is_unsafe_url_byte "/") with false. cbn iota.
    rewrite (word_keeps_bytes _ Hroute), split_scheme_slash.
    assert (Hnl : forall A (yes : string -> A) (no : A),
               match String "/" route with
               | String "/" (String "/" r') => yes r'
               | _ => no
               end = no).
    { intros A yes no. destruct route as [|c route]; [reflexivity|].
      apply (one_slash c _ yes no). cbn in Hroute. apply andb_prop in Hroute.
      intros ->. destruct Hroute as [Hc _]. discriminate Hc. }
    rewrite Hnl.
    rewrite !split_first_absent; [reflexivity| |];
      change (contains ?x (String "/" route)) with (contains x route);
      (apply word_contains; [left; unfold specials; cbn; tauto|exact Hroute]). }
  unfold urlparse. rewrite Hurl. cbn [scheme path existsb uses_params].
  change (contains ";" ("/" ++ route)) with (contains ";" route).
  rewrite word_contains; [reflexivity|left; unfold specials; cbn; tauto|exact Hroute].
Qed.

Lemma parse_qsl_name X :
  word X = true -> X <> "" -> parse_qsl ("name=" ++ X) = [("name", X)].
Proof.
  intros HX Hne. unfold parse_qsl.
  rewrite split_on_absent.
  2:{ change (contains "&" ("name=" ++ X)) with (contains "&" X).
      apply word_contains; [left; unfold specials; cbn; tauto|exact HX]. }
  cbn [flat_map]. rewrite app_nil_r. unfold parse_field.
  change ("name=" ++ X) with ("name" ++ String "=" X).
  rewrite (split_first_at "=" "name" X eq_refl).
  rewrite (word_plus _ HX), (word_unquote _ HX).
  destruct X as [|c X]; [contradiction|reflexivity].
Qed.

Lemma urlparse_named route X :
  word route = true ->
  word X = true ->
  urlparse ("/" ++ route ++ "?name=" ++ X)
  = Ok (mk_url "" "" ("/" ++ route) "" ("name=" ++ X) "").
Proof.
  intros Hroute HX.
  change ("?name=" ++ X) with (String "?" ("name=" ++ X)).
  apply urlparse_route; [exact Hroute| |].
  - change (contains "#" ("name=" ++ X)) with (contains "#" X).
    apply word_contains; [left; unfold specials; cbn; tauto|exact HX].
  - rewrite remove_chars_app, (word_keeps_bytes _ HX). reflexivity.
Qed.

Lemma requested_name_named p X :
  word X = true -> X <> "" ->
  requested_name (mk_url "" "" p "" ("name=" ++ X) "") = X.
Proof.
  intros HX Hne. unfold requested_name. cbn [query].
  rewrite (parse_qsl_name X HX Hne). reflexivity.
Qed.

(** X13: for a route and a name made of letters and digits, the target
    /route?name=X has the path /route and the name X, which holds no NUL
    character; with an empty value after name=, or without a query, the
    name is ["john"]. *)
Theorem plain_request_parses route X :
  word route = true ->
  word X = true ->
  X <> "" ->
  urlparse ("/" ++ route ++ "?name=" ++ X)
  = Ok (mk_url "" "" ("/" ++ route) "" ("name=" ++ X) "")
  /\ requested_name (mk_url "" "" ("/" ++ route) "" ("name=" ++ X) "") = X
  /\ contains NUL X = false
  /\ urlparse ("/" ++ route ++ "?name=")
     = Ok (mk_url "" "" ("/" ++ route) "" "name=" "")
  /\ requested_name (mk_url "" "" ("/" ++ route) "" "name=" "") = "john"
  /\ urlparse ("/" ++ route) = Ok (mk_url "" "" ("/" ++ route) "" "" "")
  /\ requested_name (mk_url "" "" ("/" ++ route) "" "" "") = "john".
Proof.
  intros Hroute HX Hne.
  split; [apply urlparse_named; assumption|].
  split; [apply requested_name_named; assumption|].
  split; [apply word_contains; [right; reflexivity|exact HX]|].
  split.
  { change ("?name=") with (String "?" "name=").
    apply urlparse_route; [exact Hroute|reflexivity|reflexivity]. }
  split; [reflexivity|].
  split; [apply urlparse_bare; exact Hroute|reflexivity].
Qed.

Lemma plain_request_parses_witness :
  word "write" = true /\ word "Alice2" = true /\ "Alice2" <> ""
  /\ urlparse "/write?name=Alice2"
     = Ok (mk_url "" "" "/write" "" "name=Alice2" "")
  /\ requested_name (mk_url "" "" "/write" "" "name=Alice2" "") = "Alice2".
Proof.
  split; [reflexivity|]. split; [reflexivity|]. split; [discriminate|].
  destruct (plain_request_parses "write" "Alice2" eq_refl eq_refl) as (H1 & H2 & _).
  - discriminate.
  - split; [exact H1|exact H2].
Defined.






(** ** Bodies that are JSON *)

Lemma json_run_steps s : forall st stk,
  json_run st stk s =
  match json_steps st stk s with
  | Some (st', stk') => json_final st' stk'
  | None => false
  end.
Proof.
  induction s as [|c s IH]; intros st stk; [reflexivity|].
  cbn [json_run json_steps]. destruct (json_step st stk c) as [[st' stk']|]; [apply IH|reflexivity].
Qed.

Lemma json_steps_app a b : forall st stk,
  json_steps st stk (a ++ b) =
  match json_steps st stk a with
  | Some (st', stk') => json_steps st' stk' b
  | None => None
  end.
Proof.
  induction a as [|c a IH]; intros st stk; [reflexivity|].
  change (String c a ++ b) with (String c (a ++ b)). cbn [json_steps].
  destruct (json_step st stk c) as [[st' stk']|]; [apply IH|reflexivity].
Qed.

Lemma is_plain_step c k stk :
  is_plain c = true -> json_step (JStr k) stk c = Some (JStr k, stk).
Proof.
  unfold is_plain, json_step. intros H.
  apply andb_prop in H. destruct H as [H H92].
  apply andb_prop in H. destruct H as [H32 H34].
  apply negb_true_iff in H34, H92. rewrite H34, H92.
  replace (ord c <? 32)%nat with false; [reflexivity|].
  symmetry. apply Nat.ltb_ge. apply Nat.leb_le. exact H32.
Qed.

Lemma plain_steps s k stk :
  plain s = true -> json_steps (JStr k) stk s = Some (JStr k, stk).
Proof.
  induction s as [|c s IH]; intros H; [reflexivity|].
  cbn in H. apply andb_prop in H. destruct H as [Hc Hs].
  cbn [json_steps]. rewrite (is_plain_step c k stk Hc). apply IH. exact Hs.
Qed.

(** A message body around a plain text. *)
Lemma message_is_json before s afterwards :
  plain before = true -> plain s = true -> plain afterwards = true ->
  json_valid (result_open ++ before ++ s ++ afterwards ++ result_close) = true.
Proof.
  intros Hb Hs Ha. unfold json_valid.
  rewrite json_run_steps, json_steps_app.
  change (json_steps JValue [] result_open) with (Some (JStr false, [InObj])).
  cbn iota. rewrite json_steps_app, (plain_steps _ _ _ Hb).
  rewrite json_steps_app, (plain_steps _ _ _ Hs).
  rewrite json_steps_app, (plain_steps _ _ _ Ha). reflexivity.
Qed.

(** X15: the bodies built by concatenation are valid JSON when the text
    put into them has no double quote, no backslash and no control
    character: the confirmation of a write for such a name, the 404 body
    for such a path and the 500 body for such an error text. *)
Theorem plain_bodies_are_json :
  (forall X, plain X = true ->
     json_valid (result_open ++ "Added record with name:" ++ X
                 ++ " to database" ++ result_close) = true)
  /\ (forall p, plain p = true ->
        json_valid (result_open ++ "path: " ++ p ++ " is not valid"
                    ++ result_close) = true)
  /\ (forall e, plain (str_exn e) = true ->
        json_valid (result_open
                    ++ "some error happened while processing the request: "
                    ++ str_exn e ++ result_close) = true).
Proof.
  split; [|split].
  - intros X H. apply message_is_json; [reflexivity|exact H|reflexivity].
  - intros p H. apply message_is_json; [reflexivity|exact H|reflexivity].
  - intros e H.
    apply (message_is_json
             "some error happened while processing the request: "
             (str_exn e) ""); [reflexivity|exact H|reflexivity].
Qed.

Lemma plain_bodies_are_json_witness :
  plain "O'Neil (jr.)" = true
  /\ json_valid (result_open ++ "Added record with name:" ++ "O'Neil (jr.)"
                 ++ " to database" ++ result_close) = true.
Proof.
  split; [reflexivity|].
  apply (proj1 plain_bodies_are_json "O'Neil (jr.)" eq_refl).
Defined.



(** ** The body of a read is JSON *)

Lemma digits_steps d stk :
  json_steps JInt stk (NilEmpty.string_of_uint d) = Some (JInt, stk).
Proof. induction d; cbn [NilEmpty.string_of_uint json_steps]; [reflexivity|..]; exact IHd. Qed.

Lemma positive_is_item p stk :
  json_steps JValue stk (NilEmpty.string_of_uint (Pos.to_uint p)) = Some (JInt, stk)
  /\ json_steps JArrStart stk (NilEmpty.string_of_uint (Pos.to_uint p)) = Some (JInt, stk)
  /\ json_steps JMinus stk (NilEmpty.string_of_uint (Pos.to_uint p)) = Some (JInt, stk)
  /\ Pos.to_uint p <> Decimal.Nil.
Proof.
  assert (Hnorm : Decimal.unorm (Pos.to_uint p) = Pos.to_uint p).
  { rewrite <- (DecimalPos.Unsigned.to_of (Pos.to_uint p)), DecimalPos.Unsigned.of_to. reflexivity. }
  assert (Hnz := DecimalPos.Unsigned.to_uint_nonzero p).
  assert (Hnn := DecimalPos.Unsigned.to_uint_nonnil p).
  destruct (Pos.to_uint p) as [|u|u|u|u|u|u|u|u|u|u];
    try (exfalso; apply Hnn; reflexivity);
    try (cbn [NilEmpty.string_of_uint json_steps];
         repeat split; try apply digits_steps; discriminate).
  exfalso. unfold Decimal.unorm in Hnorm. rewrite DecimalFacts.nzhead_D0 in Hnorm.
  destruct (Decimal.nzhead u) eqn:Hu; try discriminate.
  - apply Hnz. injection Hnorm as <-. reflexivity.
  - rewrite <- Hu in Hnorm. exact (DecimalFacts.nzhead_nonzero _ _ Hnorm).
Qed.

Lemma int_is_item z : json_item (str_int z).
Proof.
  intros stk. unfold str_int. destruct z as [|p|p]; cbn [Z.to_int].
  - exists JZero. unfold value_ended. auto.
  - destruct (positive_is_item p stk) as (H1 & H2 & _ & Hnn).
    exists JInt. unfold value_ended. split; [auto|].
    unfold NilZero.string_of_int, NilZero.string_of_uint.
    destruct (Pos.to_uint p); [destruct Hnn; reflexivity|..]; auto.
  - destruct (positive_is_item p stk) as (_ & _ & H3 & Hnn).
    exists JInt. unfold value_ended. split; [auto|].
    unfold NilZero.string_of_int, NilZero.string_of_uint.
    destruct (Pos.to_uint p); [destruct Hnn; reflexivity|..];
      cbn [json_steps]; split; exact H3.
Qed.

Lemma escape_char_steps c k stk :
  json_steps (JStr k) stk (json_escape_char c) = Some (JStr k, stk).
Proof.
  destruct k; destruct c as [[] [] [] [] [] [] [] []]; vm_compute; reflexivity.
Qed.

Lemma escape_steps s k stk :
  json_steps (JStr k) stk (json_escape s) = Some (JStr k, stk).
Proof.
  induction s as [|c s IH]; [reflexivity|].
  cbn [json_escape]. rewrite json_steps_app, escape_char_steps. exact IH.
Qed.

Lemma string_is_item s : json_item (encode_basestring_ascii s).
Proof.
  intros stk. exists JAfter. unfold value_ended, encode_basestring_ascii.
  split; [auto|].
  change (DQ ++ json_escape s ++ DQ) with (String (chr 34) (json_escape s ++ DQ)).
  cbn [json_steps].
  change (json_step JValue stk (chr 34)) with (Some (JStr false, stk)).
  change (json_step JArrStart stk (chr 34)) with (Some (JStr false, stk)).
  cbn iota. rewrite json_steps_app, escape_steps. auto.
Qed.

Lemma value_is_item v : json_item (json_value v).
Proof.
  destruct v; cbn [json_value].
  - intros stk. exists JAfter. unfold value_ended. auto.
  - apply int_is_item.
  - apply string_is_item.
  - apply string_is_item.
Qed.

Lemma spaces_steps st stk n :
  st = JValue \/ st = JArrStart \/ st = JAfter ->
  json_steps st stk (repeat_char " " n) = Some (st, stk).
Proof.
  intros H. induction n as [|n IH]; [reflexivity|].
  cbn [repeat_char json_steps].
  destruct H as [-> | [-> | ->]]; exact IH.
Qed.

Lemma newline_steps_start st stk level :
  st = JValue \/ st = JArrStart ->
  json_steps st stk (newline_indent level) = Some (st, stk).
Proof.
  intros H. unfold newline_indent.
  change (LF ++ repeat_char " " (4 * level))
    with (String (chr 10) (repeat_char " " (4 * level))).
  cbn [json_steps].
  destruct H as [-> | ->]; apply spaces_steps; auto.
Qed.

Lemma newline_steps_ended st stk level :
  value_ended st ->
  json_steps st stk (newline_indent level) = Some (JAfter, stk).
Proof.
  intros H. unfold newline_indent.
  change (LF ++ repeat_char " " (4 * level))
    with (String (chr 10) (repeat_char " " (4 * level))).
  cbn [json_steps].
  destruct H as [-> | [-> | ->]]; apply (spaces_steps JAfter); auto.
Qed.

Lemma separator_steps st stk level :
  value_ended st ->
  json_steps st (InArr :: stk) ("," ++ newline_indent level)
  = Some (JValue, InArr :: stk).
Proof.
  intros H.
  change ("," ++ newline_indent level) with (String "," (newline_indent level)).
  cbn [json_steps].
  destruct H as [-> | [-> | ->]]; apply (newline_steps_start JValue); auto.
Qed.

Lemma concat_steps level items :
  items <> [] ->
  Forall json_item items ->
  forall stk, exists st,
    value_ended st
    /\ json_steps JValue (InArr :: stk)
         (String.concat ("," ++ newline_indent level) items)
       = Some (st, InArr :: stk)
    /\ json_steps JArrStart (InArr :: stk)
         (String.concat ("," ++ newline_indent level) items)
       = Some (st, InArr :: stk).
Proof.
  induction items as [|x xs IH]; intros Hne Hall stk; [contradiction|].
  inversion Hall as [|? ? Hx Hxs]; subst.
  destruct xs as [|y ys].
  - cbn [String.concat]. apply Hx.
  - destruct (Hx (InArr :: stk)) as (st & Hst & H1 & H2).
    destruct (IH ltac:(discriminate) Hxs stk) as (st' & Hst' & H1' & _).
    exists st'. split; [exact Hst'|].
    change (String.concat ("," ++ newline_indent level) (x :: y :: ys))
      with (x ++ ("," ++ newline_indent level)
              ++ String.concat ("," ++ newline_indent level) (y :: ys)).
    split.
    + rewrite (json_steps_app x), H1.
      rewrite (json_steps_app ("," ++ newline_indent level)),
        (separator_steps st stk level Hst).
      exact H1'.
    + rewrite (json_steps_app x), H2.
      rewrite (json_steps_app ("," ++ newline_indent level)),
        (separator_steps st stk level Hst).
      exact H1'.
Qed.

Lemma list_is_item level items :
  Forall json_item items -> json_item (json_list level items).
Proof.
  intros Hall stk. exists JAfter. split; [left; reflexivity|].
  destruct items as [|x xs]; [split; reflexivity|].
  destruct (concat_steps (S level) (x :: xs) ltac:(discriminate) Hall stk)
    as (st & Hst & _ & H2).
  unfold json_list.
  change ("[" ++ newline_indent (S level)
          ++ String.concat ("," ++ newline_indent (S level)) (x :: xs)
          ++ newline_indent level ++ "]")
    with (String "[" (newline_indent (S level)
          ++ String.concat ("," ++ newline_indent (S level)) (x :: xs)
          ++ newline_indent level ++ "]")).
  cbn [json_steps].
  change (json_step JValue stk "[") with (Some (JArrStart, InArr :: stk)).
  change (json_step JArrStart stk "[") with (Some (JArrStart, InArr :: stk)).
  cbn iota.
  rewrite (json_steps_app (newline_indent (S level))),
    (newline_steps_start JArrStart) by auto.
  rewrite (json_steps_app (String.concat _ _)), H2.
  rewrite (json_steps_app (newline_indent level)),
    (newline_steps_ended st _ level Hst).
  split; reflexivity.
Qed.

Lemma json_dump_is_json records : json_valid (json_dump records) = true.
Proof.
  assert (H : json_item (json_dump records)).
  { unfold json_dump. apply list_is_item. apply Forall_map, Forall_forall.
    intros t _. apply list_is_item. apply Forall_map, Forall_forall.
    intros v _. apply value_is_item. }
  unfold json_valid. rewrite json_run_steps.
  destruct (H []) as (st & Hst & -> & _).
  destruct Hst as [-> | [-> | ->]]; reflexivity.
Qed.



(** X16: every 200 answer to a /read carries a body that is valid JSON,
    whatever the rows hold (quotes, backslashes and control characters in
    names are escaped by [json.dump]). *)
Theorem read_answer_is_json w self_path url sent body :
  urlparse self_path = Ok url ->
  path url = "/read" ->
  emitted (do_GET self_path) w = (sent ++ response 200 body)%list ->
  json_valid body = true.
Proof.
  intros Hurl Hpath Hem.
  assert (H := do_GET_table w self_path).
  rewrite Hurl in H. cbn zeta in H. rewrite Hpath, String.eqb_refl in H.
  assert (Hlast : forall pre code b,
             (pre ++ response code b)%list = (sent ++ response 200 body)%list ->
             code = 200 /\ b = body).
  { intros pre code b Heq.
    change (response code b) with
      ([send_response_ev code; send_header_ev "Content-type" "application/json";
        end_headers_ev] ++ [wfile_write_ev b])%list in Heq.
    change (response 200 body) with
      ([send_response_ev 200; send_header_ev "Content-type" "application/json";
        end_headers_ev] ++ [wfile_write_ev body])%list in Heq.
    rewrite !app_assoc in Heq. apply app_inj_tail in Heq. destruct Heq as [Heq Hb].
    injection Hb as ->. split; [|reflexivity].
    change ([send_response_ev code; send_header_ev "Content-type" "application/json";
             end_headers_ev]) with
      ([send_response_ev code] ++ [send_header_ev "Content-type" "application/json"]
       ++ [end_headers_ev])%list in Heq.
    change ([send_response_ev 200; send_header_ev "Content-type" "application/json";
             end_headers_ev]) with
      ([send_response_ev 200] ++ [send_header_ev "Content-type" "application/json"]
       ++ [end_headers_ev])%list in Heq.
    rewrite !app_assoc in Heq.
    apply app_inj_tail in Heq. destruct Heq as [Heq _].
    apply app_inj_tail in Heq. destruct Heq as [Heq _].
    apply app_inj_tail in Heq. destruct Heq as [_ Hc].
    injection Hc as ->. reflexivity. }
  destruct (closed w).
  { rewrite (emitted_after _ _ _ _ _ _ H) in Hem.
    destruct (Hlast [] _ _ Hem) as [Hc _]. discriminate Hc. }
  destruct (contains NUL (requested_name url)).
  { rewrite (emitted_after _ _ _ _ _ _ H) in Hem.
    destruct (Hlast [] _ _ Hem) as [Hc _]. discriminate Hc. }
  destruct (db w) as [tb|].
  - rewrite (emitted_after _ _ _ _ _ _ H) in Hem.
    destruct (Hlast [_] _ _ Hem) as [_ <-]. apply json_dump_is_json.
  - rewrite (emitted_after _ _ _ _ _ _ H) in Hem.
    destruct (Hlast [_] _ _ Hem) as [Hc _]. discriminate Hc.
Qed.

(** ** guide.py, run again *)


(** ** The further properties at concrete requests *)




Lemma rows_are_only_appended_witness :
  db (serving None noon ([(noon, "/write?name=alice")]
                         ++ [(later, "/write?name=bob"); (later, "/bogus")]))
  = Some (mk_table [mk_record 1 (Some "alice") noon;
                    mk_record 2 (Some "bob") later] 3)
  /\ exists tb0 added,
       db (serving None noon [(noon, "/write?name=alice")]) = Some tb0
       /\ [mk_record 1 (Some "alice") noon; mk_record 2 (Some "bob") later]
          = (rows tb0 ++ added)%list
       /\ (List.length added <= 2)%nat.
Proof.
  split; [reflexivity|].
  apply (rows_are_only_appended None noon [(noon, "/write?name=alice")]
           [(later, "/write?name=bob"); (later, "/bogus")]
           (mk_table [mk_record 1 (Some "alice") noon;
                      mk_record 2 (Some "bob") later] 3) eq_refl).
Defined.

Lemma ids_stay_in_order_witness :
  ids_in_order (Some (mk_table [mk_record 3 (Some "ann") noon;
                                mk_record 7 None noon] 9)) = true
  /\ db (serving (Some (mk_table [mk_record 3 (Some "ann") noon;
                                  mk_record 7 None noon] 9))
                 noon [(later, "/write")])
     = Some (mk_table [mk_record 3 (Some "ann") noon; mk_record 7 None noon;
                       mk_record 9 (Some "john") later] 10)
  /\ NoDup [3%Z; 7%Z; 9%Z].
Proof.
  split; [reflexivity|]. split; [reflexivity|].
  apply (proj1 (proj2 (ids_stay_in_order
           (Some (mk_table [mk_record 3 (Some "ann") noon;
                            mk_record 7 None noon] 9))
           noon [(later, "/write")]
           (mk_table [mk_record 3 (Some "ann") noon; mk_record 7 None noon;
                      mk_record 9 (Some "john") later] 10)
           eq_refl eq_refl))).
Defined.

Lemma fresh_ids_count_from_one_witness :
  db (serving None noon [(noon, "/write?name=alice"); (later, "/write")])
  = Some (mk_table [mk_record 1 (Some "alice") noon;
                    mk_record 2 (Some "john") later] 3)
  /\ [1%Z; 2%Z] = map Z.of_nat (seq 1 2).
Proof.
  split; [reflexivity|].
  apply (proj1 (fresh_ids_count_from_one noon
                  [(noon, "/write?name=alice"); (later, "/write")]
                  (mk_table [mk_record 1 (Some "alice") noon;
                             mk_record 2 (Some "john") later] 3)
                  eq_refl)).
Defined.

Lemma read_answer_is_json_witness :
  urlparse "/read?name=alice" = Ok (mk_url "" "" "/read" "" "name=alice" "")
  /\ emitted (do_GET "/read?name=alice") alice_written
     = ([execute_ev readDataQuery ["alice"]]
        ++ response 200
             (json_dump [[VInt 1; VStr "alice"; VDatetime noon]]))%list
  /\ json_valid (json_dump [[VInt 1; VStr "alice"; VDatetime noon]]) = true.
Proof.
  split; [reflexivity|]. split; [vm_compute; reflexivity|].
  apply (read_answer_is_json alice_written "/read?name=alice"
           (mk_url "" "" "/read" "" "name=alice" "")
           [execute_ev readDataQuery ["alice"]]
           (json_dump [[VInt 1; VStr "alice"; VDatetime noon]])
           eq_refl eq_refl).
  vm_compute. reflexivity.
Defined.

